(** * libubootenv: lifting and restoring the write protection of the
      U-Boot environment (src/uboot_env_unprotect.c)

    A shallow embedding of [env_protect_probe], [env_unprotect] and
    [env_reprotect] together with the one hardware strategy the file
    implements (eMMC boot partitions, [mmcblkboot_*]).

    - C strings are lists of characters with an implicit terminating NUL;
      a pointer is a buffer with an offset and every load is bounds checked.
    - The operating system is an explicit [world]: the sysfs control files,
      the log of system calls issued so far and the state of the allocator.
    - Functions that perform system calls live in the state monad [io]. *)

From Stdlib Require Import ZArith Ascii String.
From stdpp Require Import gmap strings list.

Local Open Scope Z_scope.
Local Open Scope list_scope.

(** ** Characters and C strings *)

Definition NUL : ascii := Ascii.zero.

(** A string literal of the C source, without its terminator. *)
Definition cs (s : string) : list ascii := list_ascii_of_string s.

(** [sizeof] of a [char] array initialised from a literal: the terminator
    is counted. *)
Definition sizeof_str (s : list ascii) : nat := S (length s).

(** Integer promotion of a [char].  Whether plain [char] is signed is left
    to the platform (signed on x86, unsigned on ARM). *)
Definition int_of_char (char_signed : bool) (c : ascii) : Z :=
  let n := Z.of_N (N_of_ascii c) in
  if char_signed && (128 <=? n) then n - 256 else n.

(** [strncmp] compares its arguments as [unsigned char]. *)
Definition uchar (c : ascii) : Z := int_of_char false c.

(** The part of a character buffer that is the C string: up to the first NUL. *)
Fixpoint c_str (l : list ascii) : list ascii :=
  match l with
  | [] => []
  | c :: l' => if Ascii.eqb c NUL then [] else c :: c_str l'
  end.

(** A list is the content of a C string when it holds no NUL itself. *)
Definition is_cstring (l : list ascii) : Prop := Forall (fun c => c <> NUL) l.

(** ** Bounds-checked memory reads *)

(** Result of a computation that reads memory: a value, or an access past
    the terminating NUL of a string (undefined behaviour in C). *)
Inductive outcome (A : Type) : Type :=
| Done (a : A)
| OutOfBounds.
Arguments Done {A} a.
Arguments OutOfBounds {A}.

Definition obind {A B} (m : outcome A) (k : A -> outcome B) : outcome B :=
  match m with
  | Done a => k a
  | OutOfBounds => OutOfBounds
  end.

Declare Scope outcome_scope.
Delimit Scope outcome_scope with outcome.
Notation "'do' x <- m ; k" := (obind m (fun x => k))
  (at level 10, x name, m at level 100, k at level 200) : outcome_scope.
Local Open Scope outcome_scope.

(** [const char *]: a NUL-terminated buffer and an offset into it. *)
Record cptr : Type := { buf : list ascii; off : nat }.

Definition ptr_of (s : list ascii) : cptr := {| buf := s; off := 0 |}.

Definition ptr_add (p : cptr) (n : nat) : cptr :=
  {| buf := buf p; off := (off p + n)%nat |}.

(** [*p].  Offsets [0 .. length] are inside the string, the last one being
    the terminator; anything beyond is out of bounds. *)
Definition load (p : cptr) : outcome ascii :=
  match buf p !! off p with
  | Some c => Done c
  | None => if (off p =? length (buf p))%nat then Done NUL else OutOfBounds
  end.

(** [strncmp(s1, s2, n)]: at most [n] characters are compared, and nothing
    after a NUL. *)
Fixpoint strncmp (s1 s2 : cptr) (n : nat) : outcome Z :=
  match n with
  | O => Done 0
  | S n' =>
      do c1 <- load s1;
      do c2 <- load s2;
      if negb (Ascii.eqb c1 c2) then Done (uchar c1 - uchar c2)
      else if Ascii.eqb c1 NUL then Done 0
      else strncmp (ptr_add s1 1) (ptr_add s2 1) n'
  end.

(** The string a [%s] conversion copies: from the pointer to the NUL. *)
Definition string_at (p : cptr) : list ascii := c_str (drop (off p) (buf p)).

(** ** Constants of the source file *)

Definition SYSFS_PATH_MAX : nat := 120.
Definition ENOMEM : Z := 12.

Definition c_sys_path_1 : list ascii := cs "/sys/class/block/".
Definition c_sys_path_2 : list ascii := cs "/force_ro".
Definition c_dev_name_1 : list ascii := cs "mmcblk".
Definition c_dev_name_2 : list ascii := cs "boot".

Definition c_unprot_char : ascii := "0"%char.
Definition c_prot_char : ascii := "1"%char.

(** [c < '0' || c > '9'] on a plain [char]. *)
Definition not_a_digit (char_signed : bool) (c : ascii) : bool :=
  (int_of_char char_signed c <? int_of_char char_signed "0"%char)
  || (int_of_char char_signed c >? int_of_char char_signed "9"%char).

(** ** The device name checks of [mmcblkboot_create] (source lines 101-127)

    The result is [Some devfile] when every check passes and [None] where
    the source returns 0.  The checks are kept in the order of the source:
    prefix, family token, the four characters at [devfile + 7], and only
    then the characters at [devfile + 6] and [devfile + 11]. *)
Definition mmcblkboot_devname_checks (char_signed : bool) (devname : list ascii)
  : outcome (option cptr) :=
  do r0 <- strncmp (ptr_of (cs "/dev/")) (ptr_of devname) 5;
  if negb (r0 =? 0) then Done None else
  let devfile := ptr_add (ptr_of devname) 5 in
  do ret <- strncmp devfile (ptr_of c_dev_name_1) (sizeof_str c_dev_name_1 - 1);
  if negb (ret =? 0) then Done None else
  do r2 <- strncmp (ptr_add devfile (sizeof_str c_dev_name_1)) (ptr_of c_dev_name_2)
                 (sizeof_str c_dev_name_2 - 1);
  if negb (r2 =? 0) then Done None else
  do d1 <- load (ptr_add devfile (sizeof_str c_dev_name_1 - 1));
  if not_a_digit char_signed d1 then Done None else
  do d2 <- load (ptr_add devfile (sizeof_str c_dev_name_1 + sizeof_str c_dev_name_2 - 1));
  if not_a_digit char_signed d2 then Done None else
  Done (Some devfile).

(** ** The platform: sysfs control files, system calls, allocator *)

(** A sysfs attribute such as [force_ro].  The attribute is one control
    byte: a read from the start of the file returns it, and a [write(2)] is
    handed to the attribute as a whole, whatever the file position, so a
    one-byte write replaces it.  [cf_byte = None] is an attribute that
    yields no data (a read returns 0); [cf_eio] makes reads and writes
    fail with -1. *)
Record ctl_file : Type := {
  cf_byte : option ascii;
  cf_perm_r : bool;
  cf_perm_w : bool;
  cf_eio : bool
}.

(** The attribute after [c] was written to it. *)
Definition store_byte (c : ascii) (f : ctl_file) : ctl_file :=
  {| cf_byte := Some c; cf_perm_r := cf_perm_r f;
     cf_perm_w := cf_perm_w f; cf_eio := cf_eio f |}.

(** The [open] flags the source uses. *)
Inductive oflag : Type := O_RDWR | O_WRONLY.

(** System calls as they are issued, whether or not they succeed. *)
Inductive syscall : Type :=
| SysAccess (path : list ascii)
| SysOpen (path : list ascii) (flags : oflag)
| SysRead (path : list ascii)
| SysWrite (path : list ascii) (c : ascii)
| SysClose (path : list ascii).

(** The platform as the code sees it: the control files by path, the
    system calls issued so far in the order of their issue, and whether the
    allocator has run out of memory. *)
Record world : Type := {
  w_fs : gmap (list ascii) ctl_file;
  w_log : list syscall;
  w_nomem : bool
}.

Definition log_call (c : syscall) (w : world) : world :=
  {| w_fs := w_fs w; w_log := w_log w ++ [c]; w_nomem := w_nomem w |}.

Definition put_file (path : list ascii) (f : ctl_file) (w : world) : world :=
  {| w_fs := <[path := f]> (w_fs w); w_log := w_log w; w_nomem := w_nomem w |}.

(** The state monad of code that talks to the platform. *)
Definition io (A : Type) : Type := world -> A * world.

Definition io_ret {A} (a : A) : io A := fun w => (a, w).

Definition io_bind {A B} (m : io A) (k : A -> io B) : io B :=
  fun w => let (a, w') := m w in k a w'.

Declare Scope io_scope.
Delimit Scope io_scope with io.
Notation "'do' x <- m ; k" := (io_bind m (fun x => k))
  (at level 10, x name, m at level 100, k at level 200) : io_scope.

(** An open file descriptor; [None] stands for the -1 of a failed [open]. *)
Record fd_t : Type := { fd_path : list ascii; fd_flags : oflag }.

Definition may_open (flags : oflag) (f : ctl_file) : bool :=
  match flags with
  | O_RDWR => cf_perm_r f && cf_perm_w f
  | O_WRONLY => cf_perm_w f
  end.

(** [access(path, W_OK)]: 0 or -1. *)
Definition sys_access_W_OK (path : list ascii) : io Z :=
  fun w =>
    (match w_fs w !! path with
     | Some f => if cf_perm_w f then 0 else -1
     | None => -1
     end, log_call (SysAccess path) w).

(** [open(path, flags)]. *)
Definition sys_open (path : list ascii) (flags : oflag) : io (option fd_t) :=
  fun w =>
    (match w_fs w !! path with
     | Some f => if may_open flags f
                 then Some {| fd_path := path; fd_flags := flags |}
                 else None
     | None => None
     end, log_call (SysOpen path flags) w).

(** [read(fd, &dst, 1)]: the number of bytes read (1, 0 or -1) and the
    content of [dst] afterwards, which changes only when a byte arrived. *)
Definition sys_read1 (fd : fd_t) (dst : ascii) : io (Z * ascii) :=
  fun w =>
    let w' := log_call (SysRead (fd_path fd)) w in
    match fd_flags fd, w_fs w !! fd_path fd with
    | O_RDWR, Some f =>
        if cf_eio f then ((-1, dst), w')
        else match cf_byte f with
             | Some c => ((1, c), w')
             | None => ((0, dst), w')
             end
    | _, _ => ((-1, dst), w')
    end.

(** [write(fd, &c, 1)]: the number of bytes written (1 or -1). *)
Definition sys_write1 (fd : fd_t) (c : ascii) : io Z :=
  fun w =>
    let w' := log_call (SysWrite (fd_path fd) c) w in
    match w_fs w !! fd_path fd with
    | Some f =>
        if cf_eio f then (-1, w')
        else (1, put_file (fd_path fd) (store_byte c f) w')
    | None => (-1, w')
    end.

(** [close(fd)]. *)
Definition sys_close (fd : fd_t) : io Z :=
  fun w => (0, log_call (SysClose (fd_path fd)) w).

(** ** The protector objects *)

(** The targets a [fp_unprotect] / [fp_reprotect] pointer can have. *)
Inductive fn_ptr : Type :=
| fn_NULL
| fn_mmcblkboot_unprotect
| fn_mmcblkboot_reprotect.

(** [struct env_protect]. *)
Record env_protect_t : Type := {
  unprotect : fn_ptr;
  reprotect : fn_ptr
}.

(** [struct env_protect_mmcblkboot].  [sysfs_path] is the string held in
    the 120-byte array. *)
Record env_protect_mmcblkboot_t : Type := {
  parent : env_protect_t;
  sysfs_path : list ascii;
  current_prot : ascii
}.

Definition set_current_prot (c : ascii) (p : env_protect_mmcblkboot_t)
  : env_protect_mmcblkboot_t :=
  {| parent := parent p; sysfs_path := sysfs_path p; current_prot := c |}.

Definition set_sysfs_path (s : list ascii) (p : env_protect_mmcblkboot_t)
  : env_protect_mmcblkboot_t :=
  {| parent := parent p; sysfs_path := s; current_prot := current_prot p |}.

Definition set_parent (e : env_protect_t) (p : env_protect_mmcblkboot_t)
  : env_protect_mmcblkboot_t :=
  {| parent := e; sysfs_path := sysfs_path p; current_prot := current_prot p |}.

(** The object [calloc] hands out: every byte zero. *)
Definition zeroed_mmcblkboot : env_protect_mmcblkboot_t :=
  {| parent := {| unprotect := fn_NULL; reprotect := fn_NULL |};
     sysfs_path := [];
     current_prot := NUL |}.

(** [calloc(1, sizeof(env_protect_mmcblkboot_t))]; [None] is NULL. *)
Definition calloc_mmcblkboot : io (option env_protect_mmcblkboot_t) :=
  fun w => (if w_nomem w then None else Some zeroed_mmcblkboot, w).

(** [snprintf(dst, size, "%s%s%s", a, b, c)]: the string left in [dst]. *)
Definition snprintf3 (size : nat) (a b c : list ascii) : list ascii :=
  take (size - 1) (a ++ b ++ c).

(** ** The eMMC boot partition strategy *)

Local Open Scope io_scope.

(** [mmcblkboot_unprotect] (source lines 54-74). *)
Definition mmcblkboot_unprotect (p_obj : env_protect_mmcblkboot_t)
  : io env_protect_mmcblkboot_t :=
  do fd <- sys_open (sysfs_path p_obj) O_RDWR;
  match fd with
  | None => io_ret p_obj
  | Some fd =>
      do r <- sys_read1 fd (current_prot p_obj);
      let n := fst r in
      let p1 := set_current_prot (snd r) p_obj in
      if (n =? 1) && (Ascii.eqb (current_prot p1) c_unprot_char
                      || Ascii.eqb (current_prot p1) c_prot_char)
      then (do _ <- sys_write1 fd c_unprot_char;
            do _ <- sys_close fd;
            io_ret p1)
      else (let p2 := set_current_prot NUL p1 in
            do _ <- sys_close fd;
            io_ret p2)
  end.

(** [mmcblkboot_reprotect] (source lines 77-90). *)
Definition mmcblkboot_reprotect (p_obj : env_protect_mmcblkboot_t)
  : io env_protect_mmcblkboot_t :=
  if negb (Ascii.eqb (current_prot p_obj) NUL) then
    do fd <- sys_open (sysfs_path p_obj) O_WRONLY;
    match fd with
    | None => io_ret p_obj
    | Some fd =>
        do _ <- sys_write1 fd (current_prot p_obj);
        do _ <- sys_close fd;
        io_ret p_obj
    end
  else io_ret p_obj.

(** [mmcblkboot_create] after the name checks (source lines 129-144): the
    return value and the object stored through [pp_obj], if any. *)
Definition mmcblkboot_construct (devfile : cptr)
  : io (Z * option env_protect_mmcblkboot_t) :=
  do p <- calloc_mmcblkboot;
  match p with
  | None => io_ret (- ENOMEM, None)
  | Some p_obj =>
      let p1 := set_sysfs_path
                  (snprintf3 SYSFS_PATH_MAX c_sys_path_1 (string_at devfile) c_sys_path_2)
                  p_obj in
      do a <- sys_access_W_OK (sysfs_path p1);
      if a =? -1 then io_ret (0, None)
      else
        let p2 := set_parent {| unprotect := fn_mmcblkboot_unprotect;
                                reprotect := reprotect (parent p1) |} p1 in
        let p3 := set_parent {| unprotect := unprotect (parent p2);
                                reprotect := fn_mmcblkboot_reprotect |} p2 in
        io_ret (1, Some p3)
  end.

(** [mmcblkboot_create] (source lines 99-145). *)
Definition mmcblkboot_create (char_signed : bool) (devname : list ascii) (w : world)
  : outcome ((Z * option env_protect_mmcblkboot_t) * world) :=
  obind (mmcblkboot_devname_checks char_signed devname) (fun chk =>
  match chk with
  | None => Done ((0, None), w)
  | Some devfile => Done (mmcblkboot_construct devfile w)
  end).

(** ** The public interface *)

(** [env_protect_probe] (source lines 149-153). *)
Definition env_protect_probe (char_signed : bool) (devname : list ascii) (w : world)
  : outcome ((Z * option env_protect_mmcblkboot_t) * world) :=
  mmcblkboot_create char_signed devname w.

(** A call through a function pointer of the dispatch table. *)
Definition call_fp (f : fn_ptr) (p_obj : env_protect_mmcblkboot_t)
  : io env_protect_mmcblkboot_t :=
  match f with
  | fn_NULL => io_ret p_obj
  | fn_mmcblkboot_unprotect => mmcblkboot_unprotect p_obj
  | fn_mmcblkboot_reprotect => mmcblkboot_reprotect p_obj
  end.

Definition is_null (f : fn_ptr) : bool :=
  match f with fn_NULL => true | _ => false end.

(** [env_unprotect] (source lines 155-159). *)
Definition env_unprotect (p_obj : env_protect_mmcblkboot_t)
  : io env_protect_mmcblkboot_t :=
  if negb (is_null (unprotect (parent p_obj)))
  then call_fp (unprotect (parent p_obj)) p_obj
  else io_ret p_obj.

(** [env_reprotect] (source lines 161-165). *)
Definition env_reprotect (p_obj : env_protect_mmcblkboot_t)
  : io env_protect_mmcblkboot_t :=
  if negb (is_null (reprotect (parent p_obj)))
  then call_fp (reprotect (parent p_obj)) p_obj
  else io_ret p_obj.

(** ** What the callers are promised, in the words of the specification *)

Definition is_ascii_digit (c : ascii) : bool :=
  (48 <=? Z.of_N (N_of_ascii c)) && (Z.of_N (N_of_ascii c) <=? 57).

(** The fixed pattern of the specification: "/dev/", "mmcblk", exactly one
    digit, "boot", exactly one digit, and nothing else. *)
Definition spec_fixed_pattern (devname : list ascii) : Prop :=
  exists d1 d2 : ascii,
    is_ascii_digit d1 = true /\ is_ascii_digit d2 = true /\
    devname = cs "/dev/" ++ cs "mmcblk" ++ [d1] ++ cs "boot" ++ [d2].

(** The control path of the specification: class directory, bare device
    name, control-file suffix. *)
Definition spec_control_path (devname : list ascii) : list ascii :=
  cs "/sys/class/block/" ++ drop 5 devname ++ cs "/force_ro".

(** The dispatch table [mmcblkboot_create] installs. *)
Definition mmcblkboot_dispatch : env_protect_t :=
  {| unprotect := fn_mmcblkboot_unprotect; reprotect := fn_mmcblkboot_reprotect |}.

(** [access(path, W_OK)] would succeed. *)
Definition writable (w : world) (path : list ascii) : bool :=
  match w_fs w !! path with
  | Some f => cf_perm_w f
  | None => false
  end.

(** [open(path, flags)] would succeed. *)
Definition can_open (flags : oflag) (w : world) (path : list ascii) : bool :=
  match w_fs w !! path with
  | Some f => may_open flags f
  | None => false
  end.

(** The system calls a computation issues when it is run in [w]. *)
Definition calls_of {A} (m : io A) (w : world) : list syscall :=
  drop (length (w_log w)) (w_log (snd (m w))).

(** The call is a [write]. *)
Definition is_write (c : syscall) : bool :=
  match c with SysWrite _ _ => true | _ => false end.

(** The lifetime of a protector: handed out by a successful probe, then
    passed through [env_unprotect] and [env_reprotect] any number of times,
    on a platform that may change between the calls. *)
Inductive protector : env_protect_mmcblkboot_t -> Prop :=
| protector_probed char_signed devname w r p w' :
    env_protect_probe char_signed devname w = Done ((r, Some p), w') ->
    protector p
| protector_unprotected p w :
    protector p -> protector (fst (env_unprotect p w))
| protector_reprotected p w :
    protector p -> protector (fst (env_reprotect p w)).

(** ** Auxiliary notions for the statements *)

(** A control file that is readable, writable, working, and holds [b]. *)
Definition ctl (b : ascii) : ctl_file :=
  {| cf_byte := Some b; cf_perm_r := true; cf_perm_w := true; cf_eio := false |}.

(** A platform whose only control file is [path], holding [b]. *)
Definition world_with (path : list ascii) (b : ascii) : world :=
  {| w_fs := {[ path := ctl b ]}; w_log := []; w_nomem := false |}.

(** [w] after the calls [l] were logged and nothing else changed. *)
Definition logged (l : list syscall) (w : world) : world :=
  {| w_fs := w_fs w; w_log := w_log w ++ l; w_nomem := w_nomem w |}.

(** The path [mmcblkboot_create] stores for a bare device name. *)
Definition stored_path (devfile : cptr) : list ascii :=
  snprintf3 SYSFS_PATH_MAX c_sys_path_1 (string_at devfile) c_sys_path_2.

(** The object a successful [mmcblkboot_create] hands out. *)
Definition fresh_protector (path : list ascii) : env_protect_mmcblkboot_t :=
  {| parent := mmcblkboot_dispatch; sysfs_path := path; current_prot := NUL |}.

(** The two recognised values of the control byte. *)
Definition is_sentinel (c : ascii) : Prop := c = c_unprot_char \/ c = c_prot_char.

(** [env_reprotect] sets out to restore: it asks for the control file to be
    opened for writing, the write of the archived byte following as soon as
    the open succeeds. *)
Definition attempts_restore (p : env_protect_mmcblkboot_t) (w : world) : Prop :=
  head (calls_of (env_reprotect p) w) = Some (SysOpen (sysfs_path p) O_WRONLY).

(** The names the device name checks let through: "/dev/mmcblk", a digit,
    "boot", a digit, and any tail. *)
Definition accepted_name (devname : list ascii) : Prop :=
  exists (d1 d2 : ascii) (rest : list ascii),
    is_ascii_digit d1 = true /\ is_ascii_digit d2 = true /\
    devname = cs "/dev/" ++ cs "mmcblk" ++ [d1] ++ cs "boot" ++ [d2] ++ rest.

(** The control path the constructor derives from a device name. *)
Definition control_path_of (devname : list ascii) : list ascii :=
  stored_path (ptr_add (ptr_of devname) 5).

(** ** Device names and platforms of the examples *)

Definition dev_boot1 : list ascii := cs "/dev/mmcblk0boot1".
Definition ctl_boot1 : list ascii := cs "/sys/class/block/mmcblk0boot1/force_ro".
Definition dev_boot12 : list ascii := cs "/dev/mmcblk0boot12".
Definition ctl_boot12 : list ascii := cs "/sys/class/block/mmcblk0boot12/force_ro".

Definition dev_boot0 : list ascii := cs "/dev/mmcblk0boot0".
Definition ctl_boot0 : list ascii := cs "/sys/class/block/mmcblk0boot0/force_ro".

(** A platform with the control files of both boot partitions, holding
    [b0] and [b1]. *)
Definition world_two (b0 b1 : ascii) : world :=
  {| w_fs := <[ctl_boot0 := ctl b0]> {[ ctl_boot1 := ctl b1 ]};
     w_log := []; w_nomem := false |}.

(** A control file that may be written but not read, holding [b]. *)
Definition ctl_write_only (b : ascii) : ctl_file :=
  {| cf_byte := Some b; cf_perm_r := false; cf_perm_w := true; cf_eio := false |}.

(** A platform without any control file. *)
Definition world_bare (nomem : bool) : world :=
  {| w_fs := ∅; w_log := []; w_nomem := nomem |}.

(** A platform without control files whose allocator has no memory left. *)
Definition world_nomem : world := world_bare true.

(** The protector after one successful [env_unprotect] of a protected
    device: '1' is archived. *)
Definition protector_after_unprotect : env_protect_mmcblkboot_t :=
  set_current_prot c_prot_char (fresh_protector ctl_boot1).

(** A name the checks let through ("/dev/mmcblk0boot1" and a tail of a
    hundred characters), and what [snprintf] leaves of its control path. *)
Definition dev_long : list ascii := dev_boot1 ++ replicate 100 "x"%char.
Definition ctl_long : list ascii :=
  take (SYSFS_PATH_MAX - 1) (spec_control_path dev_long).

(** * Facts about the device name checks *)

Lemma not_a_digit_spec (char_signed : bool) (c : ascii) :
  not_a_digit char_signed c = negb (is_ascii_digit c).
Proof.
  destruct char_signed; destruct c as [[] [] [] [] [] [] [] []]; reflexivity.
Qed.

Lemma uchar_inj (c1 c2 : ascii) : uchar c1 = uchar c2 -> c1 = c2.
Proof.
  unfold uchar, int_of_char. cbn. intros H.
  apply N2Z.inj in H.
  rewrite <- (ascii_N_embedding c1), <- (ascii_N_embedding c2).
  now rewrite H.
Qed.

Lemma uchar_diff (c1 c2 : ascii) :
  c1 <> c2 -> (uchar c1 - uchar c2 =? 0) = false.
Proof.
  intros Hne. apply Z.eqb_neq. intros H. apply Hne, uchar_inj. lia.
Qed.

(** Symbolic execution of the checks on a name given character by
    character: a comparison with a character still unknown splits the
    proof, a comparison of two known characters is evaluated. *)
Ltac split_char H :=
  match type of H with
  | context [Ascii.eqb ?a ?b] =>
      tryif first [is_var a | is_var b] then
        let E := fresh "E" in
        destruct (Ascii.eqb_spec a b) as [E | E];
        [subst | cbn -[not_a_digit uchar Ascii.eqb] in H;
                 try rewrite (uchar_diff _ _ E) in H]
      else
        let v := eval vm_compute in (Ascii.eqb a b) in
        change (Ascii.eqb a b) with v in H
  end; cbn -[not_a_digit uchar Ascii.eqb] in H.

Ltac next_char l H :=
  destruct l as [| ? l]; cbn -[not_a_digit uchar Ascii.eqb] in H;
  repeat split_char H; try discriminate H.

Ltac split_digits H :=
  rewrite ?not_a_digit_spec in H;
  repeat match type of H with
         | context [is_ascii_digit ?c] =>
             is_var c; destruct (is_ascii_digit c) eqn:?; cbn in H
         end;
  try discriminate H.

(** Every name with the prefix "/dev/mmcblk", a digit, "boot" and a digit
    passes the checks, whatever follows the second digit. *)
Lemma checks_accept (char_signed : bool) (d1 d2 : ascii) (rest : list ascii) :
  is_ascii_digit d1 = true -> is_ascii_digit d2 = true ->
  let devname := cs "/dev/" ++ cs "mmcblk" ++ [d1] ++ cs "boot" ++ [d2] ++ rest in
  mmcblkboot_devname_checks char_signed devname
  = Done (Some (ptr_add (ptr_of devname) 5)).
Proof.
  intros H1 H2. cbn -[not_a_digit].
  rewrite !not_a_digit_spec, H1, H2. reflexivity.
Qed.

(** Conversely a name that passes has that prefix. *)
Lemma checks_pass_inv (char_signed : bool) (devname : list ascii) (devfile : cptr) :
  mmcblkboot_devname_checks char_signed devname = Done (Some devfile) ->
  exists d1 d2 rest,
    is_ascii_digit d1 = true /\ is_ascii_digit d2 = true /\
    devname = cs "/dev/" ++ cs "mmcblk" ++ [d1] ++ cs "boot" ++ [d2] ++ rest /\
    devfile = ptr_add (ptr_of devname) 5.
Proof.
  unfold mmcblkboot_devname_checks. intros H.
  do 17 (next_char devname H); split_digits H.
  injection H as <-. exists a, a0, devname. repeat split; assumption.
Qed.

(** The checks read past the terminator of exactly one name. *)
Lemma checks_out_of_bounds_iff (char_signed : bool) (devname : list ascii) :
  mmcblkboot_devname_checks char_signed devname = OutOfBounds
  <-> devname = cs "/dev/mmcblk".
Proof.
  split.
  - unfold mmcblkboot_devname_checks. intros H.
    do 17 (next_char devname H; try reflexivity); split_digits H.
  - intros ->. reflexivity.
Qed.

(** * Facts about the strategy functions *)

Lemma calls_of_logged {A} (m : io A) (w : world) (l : list syscall) :
  w_log (snd (m w)) = w_log w ++ l -> calls_of m w = l.
Proof.
  intros H. unfold calls_of. rewrite H. apply drop_app_length.
Qed.

Ltac io_unfold :=
  unfold mmcblkboot_unprotect, mmcblkboot_reprotect, mmcblkboot_construct,
    io_bind, io_ret, sys_open, sys_read1, sys_write1, sys_close,
    sys_access_W_OK, calloc_mmcblkboot, can_open, writable, logged.

Ltac same_world :=
  unfold put_file, log_call; cbn; rewrite <- ?app_assoc; reflexivity.

Section strategy_functions.

Context (p : env_protect_mmcblkboot_t) (w : world).

Lemma unprotect_open_fails :
  can_open O_RDWR w (sysfs_path p) = false ->
  mmcblkboot_unprotect p w = (p, logged [SysOpen (sysfs_path p) O_RDWR] w).
Proof.
  io_unfold. destruct (w_fs w !! sysfs_path p) as [f |]; [intros -> |]; reflexivity.
Qed.

(** The read delivers one byte and it is a sentinel: it is archived and the
    unprotected sentinel is written. *)
Lemma unprotect_sentinel (f : ctl_file) (b : ascii) :
  w_fs w !! sysfs_path p = Some f ->
  may_open O_RDWR f = true -> cf_eio f = false -> cf_byte f = Some b ->
  b = c_unprot_char \/ b = c_prot_char ->
  mmcblkboot_unprotect p w
  = (set_current_prot b p,
     {| w_fs := <[sysfs_path p := store_byte c_unprot_char f]> (w_fs w);
        w_log := w_log w ++ [SysOpen (sysfs_path p) O_RDWR; SysRead (sysfs_path p);
                             SysWrite (sysfs_path p) c_unprot_char;
                             SysClose (sysfs_path p)];
        w_nomem := w_nomem w |}).
Proof.
  intros Hf Ho He Hb Hs. io_unfold. rewrite Hf, Ho. cbn.
  rewrite Hf, He, Hb. cbn.
  destruct Hs as [-> | ->]; cbn; rewrite Hf, He; cbn; f_equal; same_world.
Qed.

(** The read delivers nothing usable: an error, no data, or a byte that is
    no sentinel.  The archive is reset and nothing is written. *)
Lemma unprotect_unknown (f : ctl_file) :
  w_fs w !! sysfs_path p = Some f ->
  may_open O_RDWR f = true ->
  (cf_eio f = true \/ cf_byte f = None \/
   exists b, cf_byte f = Some b /\ b <> c_unprot_char /\ b <> c_prot_char) ->
  mmcblkboot_unprotect p w
  = (set_current_prot NUL p,
     logged [SysOpen (sysfs_path p) O_RDWR; SysRead (sysfs_path p);
             SysClose (sysfs_path p)] w).
Proof.
  intros Hf Ho Hcase. io_unfold. rewrite Hf, Ho. cbn. rewrite Hf.
  destruct Hcase as [He | [Hb | (b & Hb & H0 & H1)]].
  - rewrite He. cbn. f_equal. same_world.
  - rewrite Hb. destruct (cf_eio f); cbn; f_equal; same_world.
  - rewrite Hb. destruct (cf_eio f); cbn; [f_equal; same_world |].
    apply Ascii.eqb_neq in H0, H1. rewrite H0, H1. cbn. f_equal. same_world.
Qed.

Lemma reprotect_nothing_archived :
  current_prot p = NUL -> mmcblkboot_reprotect p w = (p, w).
Proof.
  intros H. unfold mmcblkboot_reprotect. rewrite H. reflexivity.
Qed.

Lemma reprotect_open_fails :
  current_prot p <> NUL ->
  can_open O_WRONLY w (sysfs_path p) = false ->
  mmcblkboot_reprotect p w = (p, logged [SysOpen (sysfs_path p) O_WRONLY] w).
Proof.
  intros Hc. apply Ascii.eqb_neq in Hc. io_unfold. rewrite Hc. cbn.
  destruct (w_fs w !! sysfs_path p) as [f |]; [intros -> |]; reflexivity.
Qed.

Lemma reprotect_writes (f : ctl_file) :
  current_prot p <> NUL ->
  w_fs w !! sysfs_path p = Some f -> cf_perm_w f = true ->
  mmcblkboot_reprotect p w
  = (p,
     {| w_fs := if cf_eio f then w_fs w
                else <[sysfs_path p := store_byte (current_prot p) f]> (w_fs w);
        w_log := w_log w ++ [SysOpen (sysfs_path p) O_WRONLY;
                             SysWrite (sysfs_path p) (current_prot p);
                             SysClose (sysfs_path p)];
        w_nomem := w_nomem w |}).
Proof.
  intros Hc Hf Hw. apply Ascii.eqb_neq in Hc. io_unfold. rewrite Hc. cbn.
  rewrite Hf. cbn. rewrite Hw. cbn. rewrite Hf.
  destruct (cf_eio f); cbn; f_equal; same_world.
Qed.

End strategy_functions.

(** * Facts about the constructor and the dispatch *)

Lemma construct_spec (devfile : cptr) (w : world) :
  mmcblkboot_construct devfile w
  = if w_nomem w then ((- ENOMEM, None), w)
    else if writable w (stored_path devfile)
         then ((1, Some (fresh_protector (stored_path devfile))),
               logged [SysAccess (stored_path devfile)] w)
         else ((0, None), logged [SysAccess (stored_path devfile)] w).
Proof.
  io_unfold. unfold stored_path, log_call.
  destruct (w_nomem w) eqn:Hn; [reflexivity |].
  set (path := snprintf3 _ _ _ _). clearbody path. cbn. rewrite Hn.
  destruct (w_fs w !! path) as [f |]; [| reflexivity].
  destruct (cf_perm_w f); reflexivity.
Qed.

Lemma c_str_cstring (l : list ascii) : is_cstring l -> c_str l = l.
Proof.
  induction 1 as [| c l Hc _ IH]; [reflexivity |].
  cbn. apply Ascii.eqb_neq in Hc. rewrite Hc, IH. reflexivity.
Qed.

Lemma is_cstring_drop (n : nat) (l : list ascii) :
  is_cstring l -> is_cstring (drop n l).
Proof. apply Forall_drop. Qed.

(** What a probe that hands out a protector has established. *)
Lemma probe_success_inv (char_signed : bool) (devname : list ascii) (w w' : world)
      (r : Z) (p : env_protect_mmcblkboot_t) :
  env_protect_probe char_signed devname w = Done ((r, Some p), w') ->
  r = 1 /\ w_nomem w = false /\
  p = fresh_protector (stored_path (ptr_add (ptr_of devname) 5)) /\
  writable w (sysfs_path p) = true /\
  w' = logged [SysAccess (sysfs_path p)] w /\
  mmcblkboot_devname_checks char_signed devname
  = Done (Some (ptr_add (ptr_of devname) 5)).
Proof.
  unfold env_protect_probe, mmcblkboot_create.
  destruct (mmcblkboot_devname_checks char_signed devname) as [[devfile |] |] eqn:Hchk;
    cbn [obind]; try discriminate.
  destruct (checks_pass_inv _ _ _ Hchk) as (d1 & d2 & rest & _ & _ & _ & ->).
  rewrite construct_spec.
  destruct (w_nomem w); [discriminate |].
  destruct (writable w _) eqn:Hw; [| discriminate].
  intros [= <- <- <-]. repeat split; try reflexivity. exact Hw.
Qed.

(** A name without the accepted prefix is no match and touches nothing,
    the one name on which the checks leave the string apart. *)
Lemma probe_no_match (char_signed : bool) (devname : list ascii) (w : world) :
  devname <> cs "/dev/mmcblk" ->
  (forall d1 d2 rest,
      is_ascii_digit d1 = true -> is_ascii_digit d2 = true ->
      devname <> cs "/dev/" ++ cs "mmcblk" ++ [d1] ++ cs "boot" ++ [d2] ++ rest) ->
  env_protect_probe char_signed devname w = Done ((0, None), w).
Proof.
  intros Hoob Hpre. unfold env_protect_probe, mmcblkboot_create.
  destruct (mmcblkboot_devname_checks char_signed devname) as [[devfile |] |] eqn:Hchk.
  - apply checks_pass_inv in Hchk as (d1 & d2 & rest & H1 & H2 & E & _).
    destruct (Hpre d1 d2 rest H1 H2 E).
  - reflexivity.
  - apply checks_out_of_bounds_iff in Hchk. destruct (Hoob Hchk).
Qed.

Lemma env_unprotect_dispatch (p : env_protect_mmcblkboot_t) :
  parent p = mmcblkboot_dispatch -> env_unprotect p = mmcblkboot_unprotect p.
Proof. unfold env_unprotect. intros ->. reflexivity. Qed.

Lemma env_reprotect_dispatch (p : env_protect_mmcblkboot_t) :
  parent p = mmcblkboot_dispatch -> env_reprotect p = mmcblkboot_reprotect p.
Proof. unfold env_reprotect. intros ->. reflexivity. Qed.

(** [mmcblkboot_unprotect] assigns to [current_prot] and to nothing else. *)
Lemma unprotect_frame (p : env_protect_mmcblkboot_t) (w : world) :
  parent (fst (mmcblkboot_unprotect p w)) = parent p /\
  sysfs_path (fst (mmcblkboot_unprotect p w)) = sysfs_path p.
Proof.
  io_unfold. cbn. repeat case_match; cbn; split; reflexivity.
Qed.

(** [mmcblkboot_reprotect] assigns to no field at all. *)
Lemma reprotect_frame (p : env_protect_mmcblkboot_t) (w : world) :
  fst (mmcblkboot_reprotect p w) = p.
Proof.
  io_unfold. cbn. repeat case_match; reflexivity.
Qed.

(** After [mmcblkboot_unprotect] found the file openable, the archive is
    the unknown marker or a sentinel. *)
Lemma unprotect_archives_valid (p : env_protect_mmcblkboot_t) (w : world) :
  can_open O_RDWR w (sysfs_path p) = true ->
  let c := current_prot (fst (mmcblkboot_unprotect p w)) in
  c = NUL \/ c = c_unprot_char \/ c = c_prot_char.
Proof.
  unfold can_open. destruct (w_fs w !! sysfs_path p) as [f |] eqn:Hf; [| discriminate].
  intros Ho.
  destruct (cf_eio f) eqn:He.
  { rewrite (unprotect_unknown p w f); auto. }
  destruct (cf_byte f) as [b |] eqn:Hb.
  2: { rewrite (unprotect_unknown p w f); auto. }
  destruct (Ascii.eqb_spec b c_unprot_char) as [-> | H0].
  { rewrite (unprotect_sentinel p w f c_unprot_char); auto. }
  destruct (Ascii.eqb_spec b c_prot_char) as [-> | H1].
  { rewrite (unprotect_sentinel p w f c_prot_char); auto. }
  rewrite (unprotect_unknown p w f); eauto 10.
Qed.

Lemma protector_dispatch (p : env_protect_mmcblkboot_t) :
  protector p -> parent p = mmcblkboot_dispatch.
Proof.
  induction 1 as [sg devname w r p w' Hprobe | p w Hp IH | p w Hp IH].
  - apply probe_success_inv in Hprobe as (_ & _ & -> & _). reflexivity.
  - rewrite (env_unprotect_dispatch p IH).
    rewrite (proj1 (unprotect_frame p w)). exact IH.
  - rewrite (env_reprotect_dispatch p IH), reprotect_frame. exact IH.
Qed.

(** The archive of a protector is the unknown marker or a sentinel. *)
Lemma protector_archive (p : env_protect_mmcblkboot_t) :
  protector p ->
  current_prot p = NUL \/ current_prot p = c_unprot_char \/
  current_prot p = c_prot_char.
Proof.
  induction 1 as [sg devname w r p w' Hprobe | p w Hp IH | p w Hp IH].
  - apply probe_success_inv in Hprobe as (_ & _ & -> & _). left. reflexivity.
  - rewrite (env_unprotect_dispatch p (protector_dispatch p Hp)).
    destruct (can_open O_RDWR w (sysfs_path p)) eqn:Ho.
    + apply unprotect_archives_valid, Ho.
    + rewrite unprotect_open_fails by exact Ho. exact IH.
  - rewrite (env_reprotect_dispatch p (protector_dispatch p Hp)), reprotect_frame.
    exact IH.
Qed.

Lemma digit_not_NUL (d : ascii) : is_ascii_digit d = true -> d <> NUL.
Proof. intros H ->. discriminate H. Qed.

(** For a name of the fixed pattern the stored path is the whole
    concatenation. *)
Lemma stored_path_fixed_pattern (devname : list ascii) :
  spec_fixed_pattern devname ->
  stored_path (ptr_add (ptr_of devname) 5) = spec_control_path devname.
Proof.
  intros (d1 & d2 & H1 & H2 & ->).
  apply digit_not_NUL, Ascii.eqb_neq in H1, H2.
  unfold stored_path, spec_control_path, string_at, snprintf3. cbn.
  rewrite H1. cbn. rewrite H2. reflexivity.
Qed.

(** * The claims *)

Lemma probe_boot1 (char_signed : bool) (b : ascii) :
  env_protect_probe char_signed dev_boot1 (world_with ctl_boot1 b)
  = Done ((1, Some (fresh_protector ctl_boot1)),
          logged [SysAccess ctl_boot1] (world_with ctl_boot1 b)).
Proof.
  unfold env_protect_probe, mmcblkboot_create.
  pose proof (checks_accept char_signed "0" "1" [] eq_refl eq_refl) as Hc.
  change (mmcblkboot_devname_checks char_signed dev_boot1
          = Done (Some (ptr_add (ptr_of dev_boot1) 5))) in Hc.
  rewrite Hc. cbn [obind]. rewrite construct_spec.
  change (stored_path _) with ctl_boot1.
  unfold writable, world_with. cbn [w_fs w_nomem].
  rewrite lookup_singleton_eq. reflexivity.
Qed.

Lemma protector_fresh_boot1 : protector (fresh_protector ctl_boot1).
Proof.
  exact (protector_probed true dev_boot1 _ _ _ _ (probe_boot1 true c_prot_char)).
Qed.

(** C1 (the code departs from the claim).  The path "/dev/mmcblk0boot12"
    has two digits at the partition index and is not of the fixed pattern,
    yet the probe accepts it and hands out a protector once the matching
    control file is writable: nothing checks that the name ends after the
    second digit. *)
Theorem C1_second_index_not_delimited (char_signed : bool) :
  ~ spec_fixed_pattern dev_boot12 /\
  env_protect_probe char_signed dev_boot12 (world_with ctl_boot12 c_prot_char)
  = Done ((1, Some (fresh_protector ctl_boot12)),
          logged [SysAccess ctl_boot12] (world_with ctl_boot12 c_prot_char)).
Proof.
  split.
  - intros (d1 & d2 & _ & _ & E). apply (f_equal length) in E. discriminate E.
  - unfold env_protect_probe, mmcblkboot_create.
    pose proof (checks_accept char_signed "0" "1" ["2"%char] eq_refl eq_refl) as Hc.
    change (mmcblkboot_devname_checks char_signed dev_boot12
            = Done (Some (ptr_add (ptr_of dev_boot12) 5))) in Hc.
    rewrite Hc. cbn [obind]. rewrite construct_spec.
    change (stored_path _) with ctl_boot12.
    unfold writable, world_with. cbn [w_fs w_nomem].
    rewrite lookup_singleton_eq. reflexivity.
Qed.

(** C10 (the code departs from the claim).  For "/dev/mmcblk" the bare
    name is "mmcblk": six characters and the terminator at position 6.  The
    comparison with "boot" starts at position 7, one past the terminator,
    before position 6 has been looked at, so the probe reads out of the
    bounds of the string. *)
Theorem C10_read_past_terminator (char_signed : bool) (w : world) :
  length (drop 5 (cs "/dev/mmcblk")) = 6%nat /\
  load (ptr_add (ptr_add (ptr_of (cs "/dev/mmcblk")) 5) (sizeof_str c_dev_name_1))
  = OutOfBounds /\
  env_protect_probe char_signed (cs "/dev/mmcblk") w = OutOfBounds.
Proof.
  split; [reflexivity | split; [reflexivity |]].
  unfold env_protect_probe, mmcblkboot_create.
  rewrite (proj2 (checks_out_of_bounds_iff char_signed _) eq_refl). reflexivity.
Qed.

(** C5.  A protector fresh from a successful probe has nothing archived:
    [env_reprotect] returns at once, on any platform.  It issues no system
    call (no open, no write) and leaves the platform, and with it the
    control file, as it was. *)
Theorem C5_reprotect_on_fresh_protector
        (char_signed : bool) (devname : list ascii) (w0 w1 : world) (r : Z)
        (p : env_protect_mmcblkboot_t)
        (Hprobe : env_protect_probe char_signed devname w0 = Done ((r, Some p), w1)) :
  forall w : world,
    env_reprotect p w = (p, w) /\
    calls_of (env_reprotect p) w = [] /\
    w_fs (snd (env_reprotect p w)) = w_fs w.
Proof.
  intros w.
  rewrite (env_reprotect_dispatch p (protector_dispatch p (protector_probed _ _ _ _ _ _ Hprobe))).
  apply probe_success_inv in Hprobe as (_ & _ & -> & _).
  rewrite reprotect_nothing_archived by reflexivity.
  repeat split. unfold calls_of. cbn. apply drop_all.
Qed.

Lemma C5_witness :
  env_protect_probe true dev_boot1 (world_with ctl_boot1 c_prot_char)
  = Done ((1, Some (fresh_protector ctl_boot1)),
          logged [SysAccess ctl_boot1] (world_with ctl_boot1 c_prot_char)) /\
  let w := logged [SysAccess ctl_boot1] (world_with ctl_boot1 c_prot_char) in
  env_reprotect (fresh_protector ctl_boot1) w = (fresh_protector ctl_boot1, w) /\
  calls_of (env_reprotect (fresh_protector ctl_boot1)) w = [] /\
  w_fs (snd (env_reprotect (fresh_protector ctl_boot1) w)) = w_fs w.
Proof.
  assert (H : env_protect_probe true dev_boot1 (world_with ctl_boot1 c_prot_char)
              = Done ((1, Some (fresh_protector ctl_boot1)),
                      logged [SysAccess ctl_boot1] (world_with ctl_boot1 c_prot_char)))
    by (vm_compute; reflexivity).
  split; [exact H |].
  exact (C5_reprotect_on_fresh_protector true dev_boot1 _ _ 1 _ H _).
Defined.

(** C9.  [env_reprotect] hands the protector back as it received it, on
    every platform and therefore whether its open fails, its write takes
    place, or it skips the restore: control path, archived byte and dispatch
    table are unchanged.  [env_unprotect] leaves the control path and the
    dispatch table alone as well; the archived byte is the one field it
    assigns, and on a suitable platform it does change it. *)
Theorem C9_reprotect_leaves_protector
        (p : env_protect_mmcblkboot_t) (Hp : protector p) :
  (forall w : world,
      fst (env_reprotect p w) = p /\
      fst (mmcblkboot_reprotect p w) = p /\
      sysfs_path (fst (env_unprotect p w)) = sysfs_path p /\
      parent (fst (env_unprotect p w)) = parent p) /\
  (exists w : world, current_prot (fst (env_unprotect p w)) <> current_prot p).
Proof.
  pose proof (protector_dispatch p Hp) as Hd.
  rewrite (env_reprotect_dispatch p Hd), (env_unprotect_dispatch p Hd).
  split.
  - intros w. pose proof (unprotect_frame p w) as [Hpar Hpath].
    rewrite reprotect_frame. auto.
  - set (b := if Ascii.eqb (current_prot p) c_prot_char
              then c_unprot_char else c_prot_char).
    exists (world_with (sysfs_path p) b).
    rewrite (unprotect_sentinel p _ (ctl b) b).
    + cbn. unfold b.
      destruct (Ascii.eqb_spec (current_prot p) c_prot_char) as [-> | Hne];
        [discriminate | congruence].
    + apply lookup_singleton_eq.
    + reflexivity.
    + reflexivity.
    + reflexivity.
    + unfold b. destruct (Ascii.eqb (current_prot p) c_prot_char); auto.
Qed.

Lemma C9_witness :
  protector (fresh_protector ctl_boot1) /\
  (forall w : world,
      fst (env_reprotect (fresh_protector ctl_boot1) w) = fresh_protector ctl_boot1 /\
      fst (mmcblkboot_reprotect (fresh_protector ctl_boot1) w) = fresh_protector ctl_boot1 /\
      sysfs_path (fst (env_unprotect (fresh_protector ctl_boot1) w)) = ctl_boot1 /\
      parent (fst (env_unprotect (fresh_protector ctl_boot1) w)) = mmcblkboot_dispatch).
Proof.
  assert (H : protector (fresh_protector ctl_boot1)).
  { apply (protector_probed true dev_boot1 (world_with ctl_boot1 c_prot_char) 1 _
             (logged [SysAccess ctl_boot1] (world_with ctl_boot1 c_prot_char))).
    vm_compute. reflexivity. }
  split; [exact H |].
  exact (proj1 (C9_reprotect_leaves_protector (fresh_protector ctl_boot1) H)).
Defined.

(** C4.  The control file opens and the read delivers a byte that is
    neither '0' nor '1'.  Then [env_unprotect] issues an open, a read and a
    close and no write, leaves every control file as it was and records
    the unknown marker; [env_reprotect] on the resulting protector, on any
    platform, issues no call at all and changes nothing. *)
Theorem C4_unrecognised_byte
        (p : env_protect_mmcblkboot_t) (w : world) (f : ctl_file) (b : ascii)
        (Hp : protector p)
        (Hf : w_fs w !! sysfs_path p = Some f)
        (Ho : may_open O_RDWR f = true)
        (He : cf_eio f = false)
        (Hb : cf_byte f = Some b)
        (H0 : b <> c_unprot_char) (H1 : b <> c_prot_char) :
  exists (p1 : env_protect_mmcblkboot_t) (w1 : world),
    env_unprotect p w = (p1, w1) /\
    current_prot p1 = NUL /\
    calls_of (env_unprotect p) w
    = [SysOpen (sysfs_path p) O_RDWR; SysRead (sysfs_path p); SysClose (sysfs_path p)] /\
    w_fs w1 = w_fs w /\
    forall w2 : world,
      env_reprotect p1 w2 = (p1, w2) /\ calls_of (env_reprotect p1) w2 = [].
Proof.
  pose proof (protector_dispatch p Hp) as Hd.
  assert (Hun : mmcblkboot_unprotect p w
                = (set_current_prot NUL p,
                   logged [SysOpen (sysfs_path p) O_RDWR; SysRead (sysfs_path p);
                           SysClose (sysfs_path p)] w))
    by (apply (unprotect_unknown p w f); eauto 10).
  exists (set_current_prot NUL p), (logged [SysOpen (sysfs_path p) O_RDWR;
                                            SysRead (sysfs_path p);
                                            SysClose (sysfs_path p)] w).
  rewrite (env_unprotect_dispatch p Hd).
  split; [exact Hun |]. split; [reflexivity |].
  split; [apply calls_of_logged; rewrite Hun; reflexivity |].
  split; [reflexivity |].
  intros w2. rewrite (env_reprotect_dispatch (set_current_prot NUL p) Hd).
  rewrite reprotect_nothing_archived by reflexivity.
  split; [reflexivity |]. unfold calls_of. cbn. apply drop_all.
Qed.

Lemma C4_witness :
  let p := fresh_protector ctl_boot1 in
  let w := world_with ctl_boot1 "x"%char in
  protector p /\
  w_fs w !! sysfs_path p = Some (ctl "x"%char) /\
  exists (p1 : env_protect_mmcblkboot_t) (w1 : world),
    env_unprotect p w = (p1, w1) /\
    current_prot p1 = NUL /\
    calls_of (env_unprotect p) w
    = [SysOpen (sysfs_path p) O_RDWR; SysRead (sysfs_path p); SysClose (sysfs_path p)] /\
    w_fs w1 = w_fs w /\
    forall w2 : world,
      env_reprotect p1 w2 = (p1, w2) /\ calls_of (env_reprotect p1) w2 = [].
Proof.
  intros p w.
  assert (Hp : protector p).
  { apply (protector_probed true dev_boot1 (world_with ctl_boot1 c_prot_char) 1 _
             (logged [SysAccess ctl_boot1] (world_with ctl_boot1 c_prot_char))).
    vm_compute. reflexivity. }
  assert (Hf : w_fs w !! sysfs_path p = Some (ctl "x"%char))
    by (vm_compute; reflexivity).
  split; [exact Hp |]. split; [exact Hf |].
  apply (C4_unrecognised_byte p w (ctl "x"%char) "x"%char Hp Hf);
    [reflexivity | reflexivity | reflexivity | discriminate | discriminate].
Defined.

(** C2.  The probe accepted the path, and the control file is readable,
    writable and holds '1'.  Then [env_unprotect] archives '1' and writes
    '0' to the control file, and [env_reprotect], called next, writes the
    archived '1' back: the control file, and the whole file system, is as
    it was before the two calls. *)
Theorem C2_round_trip
        (char_signed : bool) (devname : list ascii) (w0 w' : world) (r : Z)
        (p : env_protect_mmcblkboot_t) (w : world) (f : ctl_file)
        (Hprobe : env_protect_probe char_signed devname w0 = Done ((r, Some p), w'))
        (Hf : w_fs w !! sysfs_path p = Some f)
        (Hr : cf_perm_r f = true) (Hw : cf_perm_w f = true)
        (He : cf_eio f = false)
        (Hb : cf_byte f = Some c_prot_char) :
  exists (p1 : env_protect_mmcblkboot_t) (w1 w2 : world),
    env_unprotect p w = (p1, w1) /\
    current_prot p1 = c_prot_char /\
    calls_of (env_unprotect p) w
    = [SysOpen (sysfs_path p) O_RDWR; SysRead (sysfs_path p);
       SysWrite (sysfs_path p) c_unprot_char; SysClose (sysfs_path p)] /\
    (cf_byte <$> w_fs w1 !! sysfs_path p) = Some (Some c_unprot_char) /\
    env_reprotect p1 w1 = (p1, w2) /\
    calls_of (env_reprotect p1) w1
    = [SysOpen (sysfs_path p) O_WRONLY; SysWrite (sysfs_path p) c_prot_char;
       SysClose (sysfs_path p)] /\
    w_fs w2 !! sysfs_path p = Some f /\
    w_fs w2 = w_fs w.
Proof.
  pose proof (protector_dispatch p (protector_probed _ _ _ _ _ _ Hprobe)) as Hd.
  assert (Ho : may_open O_RDWR f = true) by (cbn; rewrite Hr, Hw; reflexivity).
  pose proof (unprotect_sentinel p w f c_prot_char Hf Ho He Hb (or_intror eq_refl))
    as Hun.
  set (p1 := set_current_prot c_prot_char p) in *.
  set (w1 := {| w_fs := <[sysfs_path p := store_byte c_unprot_char f]> (w_fs w);
                w_log := _; w_nomem := _ |}) in *.
  assert (Hf1 : w_fs w1 !! sysfs_path p = Some (store_byte c_unprot_char f))
    by apply lookup_insert_eq.
  assert (Hc : current_prot p1 <> NUL) by discriminate.
  pose proof (reprotect_writes p1 w1 _ Hc Hf1 Hw) as Hre.
  cbn [cf_eio store_byte] in Hre. rewrite He in Hre.
  assert (Hfs : <[sysfs_path p1 := store_byte (current_prot p1)
                                     (store_byte c_unprot_char f)]> (w_fs w1)
                = w_fs w).
  { cbn. rewrite insert_insert_eq. apply insert_id. rewrite Hf. f_equal.
    destruct f as [byte pr pw eio]. cbn in *. subst. reflexivity. }
  rewrite Hfs in Hre.
  exists p1, w1, (snd (mmcblkboot_reprotect p1 w1)).
  rewrite (env_unprotect_dispatch p Hd), (env_reprotect_dispatch p1 Hd).
  split; [exact Hun |]. split; [reflexivity |].
  split; [apply calls_of_logged; rewrite Hun; reflexivity |].
  split; [rewrite Hf1; reflexivity |].
  rewrite Hre. cbn [snd w_fs].
  split; [reflexivity |].
  split; [apply calls_of_logged; rewrite Hre; reflexivity |].
  split; [exact Hf | reflexivity].
Qed.

Lemma C2_witness :
  let p := fresh_protector ctl_boot1 in
  let w := logged [SysAccess ctl_boot1] (world_with ctl_boot1 c_prot_char) in
  env_protect_probe true dev_boot1 (world_with ctl_boot1 c_prot_char)
  = Done ((1, Some p), w) /\
  w_fs w !! sysfs_path p = Some (ctl c_prot_char) /\
  exists (p1 : env_protect_mmcblkboot_t) (w1 w2 : world),
    env_unprotect p w = (p1, w1) /\
    current_prot p1 = c_prot_char /\
    calls_of (env_unprotect p) w
    = [SysOpen (sysfs_path p) O_RDWR; SysRead (sysfs_path p);
       SysWrite (sysfs_path p) c_unprot_char; SysClose (sysfs_path p)] /\
    (cf_byte <$> w_fs w1 !! sysfs_path p) = Some (Some c_unprot_char) /\
    env_reprotect p1 w1 = (p1, w2) /\
    calls_of (env_reprotect p1) w1
    = [SysOpen (sysfs_path p) O_WRONLY; SysWrite (sysfs_path p) c_prot_char;
       SysClose (sysfs_path p)] /\
    w_fs w2 !! sysfs_path p = Some (ctl c_prot_char) /\
    w_fs w2 = w_fs w.
Proof.
  intros p w.
  assert (Hprobe : env_protect_probe true dev_boot1 (world_with ctl_boot1 c_prot_char)
                   = Done ((1, Some p), w)) by (vm_compute; reflexivity).
  assert (Hf : w_fs w !! sysfs_path p = Some (ctl c_prot_char))
    by (vm_compute; reflexivity).
  split; [exact Hprobe |]. split; [exact Hf |].
  apply (C2_round_trip true dev_boot1 _ _ 1 p w (ctl c_prot_char) Hprobe Hf);
    reflexivity.
Defined.

(** ** The archived value over the lifetime of a protector *)

Lemma can_open_inv (flags : oflag) (w : world) (path : list ascii) :
  can_open flags w path = true ->
  exists f, w_fs w !! path = Some f /\ may_open flags f = true.
Proof.
  unfold can_open. destruct (w_fs w !! path) as [f |]; [eauto | discriminate].
Qed.

(** The calls of [mmcblkboot_reprotect], case by case. *)
Lemma reprotect_calls (p : env_protect_mmcblkboot_t) (w : world) :
  calls_of (mmcblkboot_reprotect p) w
  = if Ascii.eqb (current_prot p) NUL then []
    else if can_open O_WRONLY w (sysfs_path p)
         then [SysOpen (sysfs_path p) O_WRONLY;
               SysWrite (sysfs_path p) (current_prot p);
               SysClose (sysfs_path p)]
         else [SysOpen (sysfs_path p) O_WRONLY].
Proof.
  destruct (Ascii.eqb_spec (current_prot p) NUL) as [Hc | Hc].
  - unfold calls_of. rewrite (reprotect_nothing_archived p w Hc). cbn. apply drop_all.
  - destruct (can_open O_WRONLY w (sysfs_path p)) eqn:Ho.
    + apply can_open_inv in Ho as (f & Hf & Hw).
      apply calls_of_logged. rewrite (reprotect_writes p w f Hc Hf Hw). reflexivity.
    + apply calls_of_logged. rewrite (reprotect_open_fails p w Hc Ho). reflexivity.
Qed.

(** C3.  Between the calls of its lifetime the archived value of a
    protector is the unknown marker 0, '0' or '1'.  [env_reprotect] sets
    out to restore exactly when the archived value is one of the two
    sentinels; whatever it writes is that archived sentinel, written to
    the control file; and with a sentinel archived the write is issued as
    soon as the control file opens. *)
Theorem C3_archived_value_invariant
        (p : env_protect_mmcblkboot_t) (Hp : protector p) :
  (current_prot p = NUL \/ current_prot p = c_unprot_char \/
   current_prot p = c_prot_char) /\
  forall w : world,
    (attempts_restore p w <-> is_sentinel (current_prot p)) /\
    (forall c : syscall,
        c ∈ calls_of (env_reprotect p) w -> is_write c = true ->
        c = SysWrite (sysfs_path p) (current_prot p) /\
        is_sentinel (current_prot p)) /\
    (is_sentinel (current_prot p) ->
     can_open O_WRONLY w (sysfs_path p) = true ->
     calls_of (env_reprotect p) w
     = [SysOpen (sysfs_path p) O_WRONLY;
        SysWrite (sysfs_path p) (current_prot p);
        SysClose (sysfs_path p)]).
Proof.
  pose proof (protector_archive p Hp) as Hinv.
  split; [exact Hinv |]. intros w.
  unfold attempts_restore.
  rewrite (env_reprotect_dispatch p (protector_dispatch p Hp)), reprotect_calls.
  destruct (Ascii.eqb_spec (current_prot p) NUL) as [Hc | Hc].
  - assert (Hns : ~ is_sentinel (current_prot p))
      by (rewrite Hc; intros [H | H]; discriminate H).
    split; [split; [discriminate | tauto] |].
    split; [intros c Hin; inversion Hin | tauto].
  - assert (Hs : is_sentinel (current_prot p)) by (unfold is_sentinel; tauto).
    destruct (can_open O_WRONLY w (sysfs_path p)).
    + split; [split; [intros _; exact Hs | reflexivity] |].
      split; [| reflexivity].
      intros c Hin Hwr. split; [| exact Hs].
      repeat (apply elem_of_cons in Hin as [-> | Hin]; try discriminate Hwr);
        [reflexivity | inversion Hin].
    + split; [split; [intros _; exact Hs | reflexivity] |].
      split; [| discriminate].
      intros c Hin Hwr.
      repeat (apply elem_of_cons in Hin as [-> | Hin]; try discriminate Hwr).
      inversion Hin.
Qed.

Lemma C3_witness :
  let p := fresh_protector ctl_boot1 in
  protector p /\
  (current_prot p = NUL \/ current_prot p = c_unprot_char \/
   current_prot p = c_prot_char) /\
  forall w : world, attempts_restore p w <-> is_sentinel (current_prot p).
Proof.
  intros p.
  assert (Hp : protector p).
  { apply (protector_probed true dev_boot1 (world_with ctl_boot1 c_prot_char) 1 _
             (logged [SysAccess ctl_boot1] (world_with ctl_boot1 c_prot_char))).
    vm_compute. reflexivity. }
  split; [exact Hp |].
  split; [exact (proj1 (C3_archived_value_invariant p Hp)) |].
  intros w. exact (proj1 (proj2 (C3_archived_value_invariant p Hp) w)).
Defined.

(** ** Failures of the transport *)

(** On a protector that has nothing archived, an [env_unprotect] whose open
    fails captures nothing and a later [env_reprotect] does nothing. *)
Lemma failed_open_nothing_archived
      (p : env_protect_mmcblkboot_t) (w : world) :
  protector p -> current_prot p = NUL ->
  can_open O_RDWR w (sysfs_path p) = false ->
  env_unprotect p w = (p, logged [SysOpen (sysfs_path p) O_RDWR] w) /\
  forall w2 : world, env_reprotect p w2 = (p, w2).
Proof.
  intros Hp Hc Ho. pose proof (protector_dispatch p Hp) as Hd.
  rewrite (env_unprotect_dispatch p Hd), (env_reprotect_dispatch p Hd).
  split; [apply unprotect_open_fails, Ho |].
  intros w2. apply reprotect_nothing_archived, Hc.
Qed.

(** C6 (the code departs from the claim).  A protector that archived '1'
    in an earlier [env_unprotect] is used again.  This time the open of
    [env_unprotect] fails: the call returns after the open alone and
    captures nothing, but the archive still holds the '1' of the earlier
    call, where a failed read would have reset it.  A later
    [env_reprotect] is therefore no no-op: it opens the control file, which
    holds '0' by now, and writes the stale '1'. *)
Theorem C6_failed_open_keeps_stale_archive :
  protector protector_after_unprotect /\
  can_open O_RDWR (world_bare false) ctl_boot1 = false /\
  env_unprotect protector_after_unprotect (world_bare false)
  = (protector_after_unprotect, logged [SysOpen ctl_boot1 O_RDWR] (world_bare false)) /\
  calls_of (env_reprotect protector_after_unprotect) (world_with ctl_boot1 c_unprot_char)
  = [SysOpen ctl_boot1 O_WRONLY; SysWrite ctl_boot1 c_prot_char; SysClose ctl_boot1] /\
  w_fs (snd (env_reprotect protector_after_unprotect
                           (world_with ctl_boot1 c_unprot_char))) !! ctl_boot1
  = Some (ctl c_prot_char).
Proof.
  split.
  { change protector_after_unprotect
      with (fst (env_unprotect (fresh_protector ctl_boot1)
                               (world_with ctl_boot1 c_prot_char))).
    apply protector_unprotected, protector_fresh_boot1. }
  split; [reflexivity |].
  split; [reflexivity |].
  split; vm_compute; reflexivity.
Qed.

(** ** The results of the probe *)

(** C7, the claim as stated fails.  "/dev/mmcblk0boot1" is of the fixed
    pattern and its control path does not exist, but the allocator has no
    memory: the allocation comes before the writability check and the probe
    returns -ENOMEM, not 0. *)
Lemma C7_counterexample :
  spec_fixed_pattern dev_boot1 /\
  writable world_nomem (spec_control_path dev_boot1) = false /\
  env_protect_probe true dev_boot1 world_nomem = Done ((- ENOMEM, None), world_nomem) /\
  ~ (exists w' : world,
        env_protect_probe true dev_boot1 world_nomem = Done ((0, None), w')).
Proof.
  assert (H : env_protect_probe true dev_boot1 world_nomem
              = Done ((- ENOMEM, None), world_nomem)) by reflexivity.
  split; [exists "0"%char, "1"%char; repeat split |].
  split; [reflexivity |]. split; [exact H |].
  intros [w' Hw']. rewrite H in Hw'. discriminate Hw'.
Qed.

(** C7, amended.  The probe returns a negative value only when the
    allocation fails, and the value is -ENOMEM.  For a path of the fixed
    pattern whose control path does not exist or is not writable the probe
    returns 0 and no protector provided the allocation succeeds; when the
    allocation fails it returns -ENOMEM, the writability not being looked
    at. *)
Theorem C7_probe_error_policy
        (char_signed : bool) (devname : list ascii) (w : world)
        (Hpat : spec_fixed_pattern devname)
        (Hnw : writable w (spec_control_path devname) = false) :
  (w_nomem w = false ->
   env_protect_probe char_signed devname w
   = Done ((0, None), logged [SysAccess (spec_control_path devname)] w)) /\
  (w_nomem w = true ->
   env_protect_probe char_signed devname w = Done ((- ENOMEM, None), w)) /\
  (forall (sg : bool) (name : list ascii) (w0 w1 : world) (r : Z)
          (o : option env_protect_mmcblkboot_t),
      env_protect_probe sg name w0 = Done ((r, o), w1) ->
      r < 0 -> r = - ENOMEM /\ o = None /\ w_nomem w0 = true).
Proof.
  assert (Hprobe : env_protect_probe char_signed devname w
                   = Done (mmcblkboot_construct (ptr_add (ptr_of devname) 5) w)).
  { unfold env_protect_probe, mmcblkboot_create.
    destruct Hpat as (d1 & d2 & H1 & H2 & ->).
    pose proof (checks_accept char_signed d1 d2 [] H1 H2) as Hc.
    cbn zeta in Hc. change ([d2] ++ []) with [d2] in Hc. rewrite Hc. reflexivity. }
  rewrite Hprobe, construct_spec, (stored_path_fixed_pattern devname Hpat), Hnw.
  split; [intros ->; reflexivity |].
  split; [intros ->; reflexivity |].
  intros sg name w0 w1 r o. unfold env_protect_probe, mmcblkboot_create.
  destruct (mmcblkboot_devname_checks sg name) as [[devfile |] |];
    cbn [obind]; [| intros [= <- <- <-]; lia | discriminate].
  rewrite construct_spec.
  destruct (w_nomem w0); [intros [= <- <- <-]; auto |].
  destruct (writable w0 (stored_path devfile)); intros [= <- <- <-]; lia.
Qed.

Lemma C7_witness :
  spec_fixed_pattern dev_boot1 /\
  writable (world_bare false) (spec_control_path dev_boot1) = false /\
  env_protect_probe true dev_boot1 (world_bare false)
  = Done ((0, None), logged [SysAccess (spec_control_path dev_boot1)] (world_bare false)).
Proof.
  assert (Hpat : spec_fixed_pattern dev_boot1)
    by (exists "0"%char, "1"%char; repeat split).
  assert (Hnw : writable (world_bare false) (spec_control_path dev_boot1) = false)
    by reflexivity.
  split; [exact Hpat |]. split; [exact Hnw |].
  exact (proj1 (C7_probe_error_policy true dev_boot1 (world_bare false) Hpat Hnw)
               eq_refl).
Defined.

(** ** The stored control path *)

(** On a name of the fixed pattern the stored control path is the whole
    concatenation of class directory, bare name and "/force_ro"; for
    "/dev/mmcblk0boot1" it is "/sys/class/block/mmcblk0boot1/force_ro". *)
Lemma fixed_pattern_control_path
      (char_signed : bool) (devname : list ascii) (w w' : world) (r : Z)
      (p : env_protect_mmcblkboot_t) :
  spec_fixed_pattern devname ->
  env_protect_probe char_signed devname w = Done ((r, Some p), w') ->
  sysfs_path p = spec_control_path devname /\
  (devname = dev_boot1 -> sysfs_path p = ctl_boot1).
Proof.
  intros Hpat Hprobe.
  apply probe_success_inv in Hprobe as (_ & _ & -> & _).
  cbn [sysfs_path fresh_protector].
  rewrite (stored_path_fixed_pattern devname Hpat).
  split; [reflexivity |]. intros ->. reflexivity.
Qed.

(** What [snprintf] leaves of the concatenation in general: its first
    SYSFS_PATH_MAX - 1 = 119 characters, which is all of it when the device
    name has at most 98 characters. *)
Lemma stored_control_path_cut
      (char_signed : bool) (devname : list ascii) (w w' : world) (r : Z)
      (p : env_protect_mmcblkboot_t)
      (Hcs : is_cstring devname)
      (Hprobe : env_protect_probe char_signed devname w = Done ((r, Some p), w')) :
  sysfs_path p = take (SYSFS_PATH_MAX - 1) (spec_control_path devname) /\
  ((length devname <= 98)%nat -> sysfs_path p = spec_control_path devname).
Proof.
  apply probe_success_inv in Hprobe as (_ & _ & -> & _).
  assert (Hpath : sysfs_path (fresh_protector (stored_path (ptr_add (ptr_of devname) 5)))
                  = take (SYSFS_PATH_MAX - 1) (spec_control_path devname)).
  { cbn [sysfs_path fresh_protector].
    unfold stored_path, snprintf3, string_at, spec_control_path.
    cbn [buf off ptr_add ptr_of Nat.add].
    rewrite (c_str_cstring _ (is_cstring_drop 5 devname Hcs)). reflexivity. }
  split; [exact Hpath |].
  intros Hlen. rewrite Hpath. apply take_ge.
  unfold spec_control_path. rewrite !length_app, length_drop.
  change (length (cs "/sys/class/block/")) with 17%nat.
  change (length (cs "/force_ro")) with 9%nat.
  change (SYSFS_PATH_MAX - 1)%nat with 119%nat. lia.
Qed.

(** C8 (the code departs from the claim).  [dev_long], "/dev/mmcblk0boot1"
    with a tail of a hundred characters, is not of the fixed pattern, but
    the name checks let it through, as they do not look for the end of the
    name.  Once the file at the truncated path is writable the probe hands
    out a protector, and the control path it stores is the first 119
    characters of the 138 of the concatenation: it is not the concatenation
    of "/sys/class/block/", the bare name and "/force_ro", and it does not
    even end in "/force_ro". *)
Theorem C8_long_name_truncated_path :
  ~ spec_fixed_pattern dev_long /\
  env_protect_probe true dev_long (world_with ctl_long c_prot_char)
  = Done ((1, Some (fresh_protector ctl_long)),
          logged [SysAccess ctl_long] (world_with ctl_long c_prot_char)) /\
  length (sysfs_path (fresh_protector ctl_long)) = 119%nat /\
  length (spec_control_path dev_long) = 138%nat /\
  sysfs_path (fresh_protector ctl_long) <> spec_control_path dev_long /\
  drop 110 (sysfs_path (fresh_protector ctl_long)) <> c_sys_path_2.
Proof.
  split.
  { intros (d1 & d2 & _ & _ & E). apply (f_equal length) in E. discriminate E. }
  split.
  { unfold env_protect_probe, mmcblkboot_create.
    pose proof (checks_accept true "0" "1" (replicate 100 "x"%char) eq_refl eq_refl)
      as Hc.
    change (mmcblkboot_devname_checks true dev_long
            = Done (Some (ptr_add (ptr_of dev_long) 5))) in Hc.
    rewrite Hc. cbn [obind]. rewrite construct_spec.
    change (stored_path _) with ctl_long.
    unfold writable, world_with. cbn [w_fs w_nomem].
    rewrite lookup_singleton_eq. reflexivity. }
  split; [reflexivity |]. split; [reflexivity |]. split.
  - intros E. apply (f_equal length) in E. discriminate E.
  - discriminate.
Qed.

(** * Further properties of the code *)

(** ** The probe *)

Lemma obind_ext {A B} (m : outcome A) (k1 k2 : A -> outcome B) :
  (forall a, k1 a = k2 a) -> obind m k1 = obind m k2.
Proof. intros H. destruct m; [apply H | reflexivity]. Qed.

Lemma checks_signedness (devname : list ascii) :
  mmcblkboot_devname_checks true devname = mmcblkboot_devname_checks false devname.
Proof.
  unfold mmcblkboot_devname_checks.
  repeat (apply obind_ext; intros ?; rewrite ?not_a_digit_spec;
          try (case_match; [reflexivity |])).
  reflexivity.
Qed.

Lemma checks_pass_accepted (char_signed : bool) (devname : list ascii) :
  (exists devfile, mmcblkboot_devname_checks char_signed devname = Done (Some devfile))
  -> accepted_name devname.
Proof.
  intros [devfile H].
  apply checks_pass_inv in H as (d1 & d2 & rest & H1 & H2 & E & _).
  exists d1, d2, rest. auto.
Qed.

(** X1.  The device name checks of [mmcblkboot_create] pass exactly for the
    names made of "/dev/mmcblk", one digit, "boot", one digit and an
    arbitrary tail; the bare name handed on starts at offset 5. *)
Theorem X1_accepted_names (char_signed : bool) (devname : list ascii) :
  (exists devfile, mmcblkboot_devname_checks char_signed devname = Done (Some devfile))
  <-> accepted_name devname.
Proof.
  split.
  - apply checks_pass_accepted.
  - intros (d1 & d2 & rest & H1 & H2 & ->).
    eexists. apply (checks_accept char_signed d1 d2 rest H1 H2).
Qed.

(** X2.  [env_protect_probe] reads outside the device name for the name
    "/dev/mmcblk" and for no other: on every other name, and on every
    platform, it returns. *)
Theorem X2_probe_defined_iff (char_signed : bool) (devname : list ascii) (w : world) :
  (env_protect_probe char_signed devname w = OutOfBounds <-> devname = cs "/dev/mmcblk") /\
  (devname <> cs "/dev/mmcblk" ->
   exists r o w', env_protect_probe char_signed devname w = Done ((r, o), w')).
Proof.
  assert (Hiff : env_protect_probe char_signed devname w = OutOfBounds
                 <-> devname = cs "/dev/mmcblk").
  { rewrite <- (checks_out_of_bounds_iff char_signed).
    unfold env_protect_probe, mmcblkboot_create.
    destruct (mmcblkboot_devname_checks char_signed devname) as [[devfile |] |];
      cbn [obind]; split; intros H; try discriminate H; reflexivity. }
  split; [exact Hiff |].
  intros Hne.
  destruct (env_protect_probe char_signed devname w) as [[[r o] w'] |] eqn:E.
  - eauto.
  - destruct (Hne (proj1 Hiff eq_refl)).
Qed.

(** X13.  The outcome of the probe does not depend on whether plain [char]
    is signed: the two digit tests reject the same characters either way. *)
Theorem X13_probe_signedness (devname : list ascii) (w : world) :
  env_protect_probe true devname w = env_protect_probe false devname w.
Proof.
  unfold env_protect_probe, mmcblkboot_create.
  rewrite checks_signedness. reflexivity.
Qed.

Lemma probe_accepted (char_signed : bool) (devname : list ascii) (w : world) :
  accepted_name devname ->
  env_protect_probe char_signed devname w
  = Done (mmcblkboot_construct (ptr_add (ptr_of devname) 5) w).
Proof.
  intros (d1 & d2 & rest & H1 & H2 & ->).
  unfold env_protect_probe, mmcblkboot_create.
  pose proof (checks_accept char_signed d1 d2 rest H1 H2) as Hc.
  cbn zeta in Hc. rewrite Hc. reflexivity.
Qed.

(** X3.  The decision table of [env_protect_probe] on a name other than
    "/dev/mmcblk".  A name that is not accepted gives 0 without any system
    call.  An accepted name gives -ENOMEM without any system call when the
    allocation fails; otherwise one [access] on its control path is issued
    and the result is 1 with a protector that has nothing archived when the
    path is writable, and 0 without a protector when it is not. *)
Theorem X3_probe_decision_table
        (char_signed : bool) (devname : list ascii) (w : world)
        (Hne : devname <> cs "/dev/mmcblk") :
  (~ accepted_name devname ->
   env_protect_probe char_signed devname w = Done ((0, None), w)) /\
  (accepted_name devname -> w_nomem w = true ->
   env_protect_probe char_signed devname w = Done ((- ENOMEM, None), w)) /\
  (accepted_name devname -> w_nomem w = false ->
   writable w (control_path_of devname) = false ->
   env_protect_probe char_signed devname w
   = Done ((0, None), logged [SysAccess (control_path_of devname)] w)) /\
  (accepted_name devname -> w_nomem w = false ->
   writable w (control_path_of devname) = true ->
   env_protect_probe char_signed devname w
   = Done ((1, Some (fresh_protector (control_path_of devname))),
           logged [SysAccess (control_path_of devname)] w)).
Proof.
  unfold control_path_of. repeat split.
  - intros Hna. apply probe_no_match; [exact Hne |].
    intros d1 d2 rest H1 H2 E. apply Hna. exists d1, d2, rest. auto.
  - intros Ha Hm. rewrite (probe_accepted _ _ _ Ha), construct_spec, Hm. reflexivity.
  - intros Ha Hm Hw. rewrite (probe_accepted _ _ _ Ha), construct_spec, Hm, Hw.
    reflexivity.
  - intros Ha Hm Hw. rewrite (probe_accepted _ _ _ Ha), construct_spec, Hm, Hw.
    reflexivity.
Qed.

Lemma X3_witness :
  cs "/dev/sda1" <> cs "/dev/mmcblk" /\
  (~ accepted_name (cs "/dev/sda1") ->
   env_protect_probe true (cs "/dev/sda1") (world_bare false)
   = Done ((0, None), world_bare false)).
Proof.
  assert (Hne : cs "/dev/sda1" <> cs "/dev/mmcblk") by discriminate.
  split; [exact Hne |].
  exact (proj1 (X3_probe_decision_table true (cs "/dev/sda1") (world_bare false) Hne)).
Defined.

(** X4.  Whatever [env_protect_probe] returns, it has left every control
    file and the allocator as they were and has issued no system call but,
    at most, one [access] on the control path of the name: it never opens,
    reads or writes.  The return value is 1, 0 or -ENOMEM, and a protector
    is handed out exactly when it is 1. *)
Theorem X4_probe_side_effects
        (char_signed : bool) (devname : list ascii) (w w' : world) (r : Z)
        (o : option env_protect_mmcblkboot_t)
        (Hprobe : env_protect_probe char_signed devname w = Done ((r, o), w')) :
  w_fs w' = w_fs w /\ w_nomem w' = w_nomem w /\
  (w_log w' = w_log w \/
   w_log w' = w_log w ++ [SysAccess (control_path_of devname)]) /\
  (r = 1 \/ r = 0 \/ r = - ENOMEM) /\
  (r = 1 <-> exists p, o = Some p).
Proof.
  revert Hprobe. unfold env_protect_probe, mmcblkboot_create.
  destruct (mmcblkboot_devname_checks char_signed devname) as [[devfile |] |] eqn:Hchk;
    cbn [obind]; [| | discriminate].
  - apply checks_pass_inv in Hchk as (_ & _ & _ & _ & _ & _ & ->).
    rewrite construct_spec. fold (control_path_of devname).
    destruct (w_nomem w) eqn:Hm; [| destruct (writable w _)];
      intros [= <- <- <-]; cbn; rewrite ?Hm;
      repeat split; auto; try (intros [p Hp]; discriminate Hp); try discriminate;
      eauto.
  - intros [= <- <- <-].
    repeat split; auto; try (intros [p Hp]; discriminate Hp); discriminate.
Qed.

Lemma X4_witness :
  env_protect_probe true dev_boot1 (world_bare false)
  = Done ((0, None), logged [SysAccess ctl_boot1] (world_bare false)) /\
  w_fs (logged [SysAccess ctl_boot1] (world_bare false)) = w_fs (world_bare false).
Proof.
  assert (H : env_protect_probe true dev_boot1 (world_bare false)
              = Done ((0, None), logged [SysAccess ctl_boot1] (world_bare false)))
    by (vm_compute; reflexivity).
  split; [exact H |].
  exact (proj1 (X4_probe_side_effects true dev_boot1 _ _ 0 None H)).
Defined.

(** ** The stored control path *)

Lemma c_str_is_cstring (l : list ascii) : is_cstring (c_str l).
Proof.
  induction l as [| c l IH]; cbn; [constructor |].
  destruct (Ascii.eqb_spec c NUL) as [-> | Hc]; constructor; assumption.
Qed.

Lemma control_path_cstring (devname : list ascii) :
  is_cstring devname ->
  control_path_of devname = take (SYSFS_PATH_MAX - 1) (spec_control_path devname).
Proof.
  intros Hcs. unfold control_path_of, stored_path, snprintf3, string_at, spec_control_path.
  cbn [buf off ptr_add ptr_of Nat.add].
  rewrite (c_str_cstring _ (is_cstring_drop 5 devname Hcs)). reflexivity.
Qed.

Lemma control_path_shape (devname : list ascii) :
  accepted_name devname ->
  (length (control_path_of devname) <= 119)%nat /\
  is_cstring (control_path_of devname) /\
  exists tail, control_path_of devname = cs "/sys/class/block/mmcblk" ++ tail.
Proof.
  intros (d1 & d2 & rest & _ & _ & ->).
  unfold control_path_of, stored_path, snprintf3, string_at.
  split; [| split].
  - rewrite length_take. change (SYSFS_PATH_MAX - 1)%nat with 119%nat. lia.
  - apply Forall_take. repeat apply Forall_app_2.
    + repeat constructor; discriminate.
    + apply c_str_is_cstring.
    + repeat constructor; discriminate.
  - cbn. eexists. reflexivity.
Qed.

(** X11.  Over the whole lifetime of a protector its control path is the
    one the constructor wrote: a string of at most 119 characters without
    NUL, so that it fits the 120-byte array with its terminator, and it
    starts with "/sys/class/block/mmcblk". *)
Theorem X11_control_path_fits (p : env_protect_mmcblkboot_t) (Hp : protector p) :
  (length (sysfs_path p) < SYSFS_PATH_MAX)%nat /\
  is_cstring (sysfs_path p) /\
  exists tail, sysfs_path p = cs "/sys/class/block/mmcblk" ++ tail.
Proof.
  induction Hp as [sg devname w r p w' Hprobe | p w Hp IH | p w Hp IH].
  - apply probe_success_inv in Hprobe as (_ & _ & -> & _ & _ & Hchk).
    assert (Ha : accepted_name devname)
      by (apply (checks_pass_accepted sg); eauto).
    destruct (control_path_shape devname Ha) as (Hlen & Hcs & Htail).
    cbn [sysfs_path fresh_protector]. fold (control_path_of devname).
    unfold SYSFS_PATH_MAX. split; [lia | auto].
  - rewrite (env_unprotect_dispatch p (protector_dispatch p Hp)).
    rewrite (proj2 (unprotect_frame p w)). exact IH.
  - rewrite (env_reprotect_dispatch p (protector_dispatch p Hp)), reprotect_frame.
    exact IH.
Qed.

Lemma X11_witness :
  protector (fresh_protector ctl_boot1) /\
  (length (sysfs_path (fresh_protector ctl_boot1)) < SYSFS_PATH_MAX)%nat /\
  is_cstring (sysfs_path (fresh_protector ctl_boot1)).
Proof.
  assert (H : protector (fresh_protector ctl_boot1)).
  { apply (protector_probed true dev_boot1 (world_with ctl_boot1 c_prot_char) 1 _
             (logged [SysAccess ctl_boot1] (world_with ctl_boot1 c_prot_char))).
    vm_compute. reflexivity. }
  split; [exact H |].
  pose proof (X11_control_path_fits (fresh_protector ctl_boot1) H) as (Hlen & Hcs & _).
  split; [exact Hlen | exact Hcs].
Defined.

Lemma accepted_prefix (devname : list ascii) :
  accepted_name devname -> take 5 devname = cs "/dev/".
Proof. intros (d1 & d2 & rest & _ & _ & ->). reflexivity. Qed.

(** X10.  Accepted device names of at most 98 characters are told apart by
    their control paths: two of them with the same stored control path are
    the same name, so that such a protector stands for one device. *)
Theorem X10_control_path_injective
        (a b : list ascii)
        (Hca : is_cstring a) (Hcb : is_cstring b)
        (Ha : accepted_name a) (Hb : accepted_name b)
        (Hla : (length a <= 98)%nat) (Hlb : (length b <= 98)%nat)
        (Hpath : control_path_of a = control_path_of b) :
  a = b.
Proof.
  assert (Hfull : forall d, is_cstring d -> (length d <= 98)%nat ->
                            control_path_of d = spec_control_path d).
  { intros d Hc Hl. rewrite (control_path_cstring d Hc). apply take_ge.
    unfold spec_control_path. rewrite !length_app, length_drop.
    change (length (cs "/sys/class/block/")) with 17%nat.
    change (length (cs "/force_ro")) with 9%nat.
    change (SYSFS_PATH_MAX - 1)%nat with 119%nat. lia. }
  rewrite (Hfull a Hca Hla), (Hfull b Hcb Hlb) in Hpath.
  unfold spec_control_path in Hpath.
  apply app_inv_head, app_inv_tail in Hpath.
  rewrite <- (take_drop 5 a), <- (take_drop 5 b).
  rewrite (accepted_prefix a Ha), (accepted_prefix b Hb), Hpath. reflexivity.
Qed.

Lemma X10_witness :
  is_cstring dev_boot1 /\ accepted_name dev_boot1 /\ (length dev_boot1 <= 98)%nat /\
  control_path_of dev_boot1 = control_path_of dev_boot1 /\
  dev_boot1 = dev_boot1.
Proof.
  assert (Hcs : is_cstring dev_boot1) by (repeat constructor; discriminate).
  assert (Ha : accepted_name dev_boot1)
    by (exists "0"%char, "1"%char, []; repeat split).
  assert (Hl : (length dev_boot1 <= 98)%nat) by (vm_compute; lia).
  split; [exact Hcs |]. split; [exact Ha |]. split; [exact Hl |].
  split; [reflexivity |].
  exact (X10_control_path_injective dev_boot1 dev_boot1 Hcs Hcs Ha Ha Hl Hl eq_refl).
Defined.

(** ** The strategy functions and the file system *)

Ltac io_cases :=
  io_unfold; unfold put_file, log_call; cbn;
  repeat case_match; simplify_eq; cbn.

(** Neither function touches a control file other than the protector's. *)
Lemma unprotect_other_files (p : env_protect_mmcblkboot_t) (w : world)
      (path : list ascii) :
  path <> sysfs_path p ->
  w_fs (snd (mmcblkboot_unprotect p w)) !! path = w_fs w !! path.
Proof.
  intros Hne. io_cases; rewrite ?lookup_insert_ne by congruence; reflexivity.
Qed.

Lemma reprotect_other_files (p : env_protect_mmcblkboot_t) (w : world)
      (path : list ascii) :
  path <> sysfs_path p ->
  w_fs (snd (mmcblkboot_reprotect p w)) !! path = w_fs w !! path.
Proof.
  intros Hne. io_cases; rewrite ?lookup_insert_ne by congruence; reflexivity.
Qed.

(** The three ways [mmcblkboot_unprotect] can go, decided by the control
    file alone. *)
Lemma unprotect_cases (p : env_protect_mmcblkboot_t) (w : world) :
  (can_open O_RDWR w (sysfs_path p) = false) \/
  (exists f, w_fs w !! sysfs_path p = Some f /\ may_open O_RDWR f = true /\
             (cf_eio f = true \/ cf_byte f = None \/
              exists b, cf_byte f = Some b /\ b <> c_unprot_char /\ b <> c_prot_char)) \/
  (exists f b, w_fs w !! sysfs_path p = Some f /\ may_open O_RDWR f = true /\
               cf_eio f = false /\ cf_byte f = Some b /\ is_sentinel b).
Proof.
  unfold can_open. destruct (w_fs w !! sysfs_path p) as [f |]; [| auto].
  destruct (may_open O_RDWR f) eqn:Ho; [| auto]. right.
  destruct (cf_eio f) eqn:He; [left; eauto 10 |].
  destruct (cf_byte f) as [b |] eqn:Hb; [| left; eauto 10].
  destruct (Ascii.eqb_spec b c_unprot_char) as [-> | H0];
    [right; exists f, c_unprot_char; unfold is_sentinel; auto 10 |].
  destruct (Ascii.eqb_spec b c_prot_char) as [-> | H1];
    [right; exists f, c_prot_char; unfold is_sentinel; auto 10 |].
  left. eauto 10.
Qed.

(** What either function does to the protector and to its control file
    depends on the platform through that control file alone. *)
Lemma unprotect_local (p : env_protect_mmcblkboot_t) (w w' : world) :
  w_fs w !! sysfs_path p = w_fs w' !! sysfs_path p ->
  fst (mmcblkboot_unprotect p w) = fst (mmcblkboot_unprotect p w') /\
  w_fs (snd (mmcblkboot_unprotect p w)) !! sysfs_path p
  = w_fs (snd (mmcblkboot_unprotect p w')) !! sysfs_path p.
Proof.
  intros H.
  destruct (unprotect_cases p w) as [Ho | [(f & Hf & Ho & Hu) | (f & b & Hf & Ho & He & Hb & Hs)]].
  - assert (Ho' : can_open O_RDWR w' (sysfs_path p) = false)
      by (unfold can_open in *; rewrite <- H; exact Ho).
    rewrite (unprotect_open_fails p w Ho), (unprotect_open_fails p w' Ho').
    split; [reflexivity | exact H].
  - assert (Hf' : w_fs w' !! sysfs_path p = Some f) by (rewrite <- H; exact Hf).
    rewrite (unprotect_unknown p w f Hf Ho Hu), (unprotect_unknown p w' f Hf' Ho Hu).
    split; [reflexivity | exact H].
  - assert (Hf' : w_fs w' !! sysfs_path p = Some f) by (rewrite <- H; exact Hf).
    rewrite (unprotect_sentinel p w f b Hf Ho He Hb Hs),
            (unprotect_sentinel p w' f b Hf' Ho He Hb Hs).
    cbn. rewrite !lookup_insert_eq. split; reflexivity.
Qed.

Lemma reprotect_local (p : env_protect_mmcblkboot_t) (w w' : world) :
  w_fs w !! sysfs_path p = w_fs w' !! sysfs_path p ->
  fst (mmcblkboot_reprotect p w) = fst (mmcblkboot_reprotect p w') /\
  w_fs (snd (mmcblkboot_reprotect p w)) !! sysfs_path p
  = w_fs (snd (mmcblkboot_reprotect p w')) !! sysfs_path p.
Proof.
  intros H. rewrite !reprotect_frame. split; [reflexivity |].
  destruct (Ascii.eqb_spec (current_prot p) NUL) as [Hc | Hc].
  { rewrite !reprotect_nothing_archived by exact Hc. exact H. }
  destruct (can_open O_WRONLY w (sysfs_path p)) eqn:Ho.
  - apply can_open_inv in Ho as (f & Hf & Hw).
    assert (Hf' : w_fs w' !! sysfs_path p = Some f) by (rewrite <- H; exact Hf).
    rewrite (reprotect_writes p w f Hc Hf Hw), (reprotect_writes p w' f Hc Hf' Hw).
    cbn. destruct (cf_eio f); [exact H | rewrite !lookup_insert_eq; reflexivity].
  - assert (Ho' : can_open O_WRONLY w' (sysfs_path p) = false)
      by (unfold can_open in *; rewrite <- H; exact Ho).
    rewrite (reprotect_open_fails p w Hc Ho), (reprotect_open_fails p w' Hc Ho').
    exact H.
Qed.

(** Permissions and the error state of the control file are not changed. *)
Lemma unprotect_file_attributes (p : env_protect_mmcblkboot_t) (w : world) :
  (cf_perm_r <$> w_fs (snd (mmcblkboot_unprotect p w)) !! sysfs_path p)
  = (cf_perm_r <$> w_fs w !! sysfs_path p) /\
  (cf_perm_w <$> w_fs (snd (mmcblkboot_unprotect p w)) !! sysfs_path p)
  = (cf_perm_w <$> w_fs w !! sysfs_path p) /\
  (cf_eio <$> w_fs (snd (mmcblkboot_unprotect p w)) !! sysfs_path p)
  = (cf_eio <$> w_fs w !! sysfs_path p).
Proof.
  destruct (unprotect_cases p w) as [Ho | [(f & Hf & Ho & Hu) | (f & b & Hf & Ho & He & Hb & Hs)]].
  - rewrite (unprotect_open_fails p w Ho). auto.
  - rewrite (unprotect_unknown p w f Hf Ho Hu). auto.
  - rewrite (unprotect_sentinel p w f b Hf Ho He Hb Hs). cbn.
    rewrite lookup_insert_eq, Hf. auto.
Qed.

Lemma reprotect_file_attributes (p : env_protect_mmcblkboot_t) (w : world) :
  (cf_perm_r <$> w_fs (snd (mmcblkboot_reprotect p w)) !! sysfs_path p)
  = (cf_perm_r <$> w_fs w !! sysfs_path p) /\
  (cf_perm_w <$> w_fs (snd (mmcblkboot_reprotect p w)) !! sysfs_path p)
  = (cf_perm_w <$> w_fs w !! sysfs_path p) /\
  (cf_eio <$> w_fs (snd (mmcblkboot_reprotect p w)) !! sysfs_path p)
  = (cf_eio <$> w_fs w !! sysfs_path p).
Proof.
  destruct (Ascii.eqb_spec (current_prot p) NUL) as [Hc | Hc].
  { rewrite reprotect_nothing_archived by exact Hc. auto. }
  destruct (can_open O_WRONLY w (sysfs_path p)) eqn:Ho.
  - apply can_open_inv in Ho as (f & Hf & Hw).
    rewrite (reprotect_writes p w f Hc Hf Hw). cbn.
    destruct (cf_eio f); [auto |]. rewrite lookup_insert_eq, Hf. auto.
  - rewrite (reprotect_open_fails p w Hc Ho). auto.
Qed.

(** X7.  [env_unprotect] and [env_reprotect] of a protector leave every
    control file other than the protector's own exactly as it was, and of
    its own control file they change neither the permissions nor the error
    state: the control byte is all they can change. *)
Theorem X7_only_own_control_byte
        (p : env_protect_mmcblkboot_t) (w : world) (Hp : protector p) :
  (forall path : list ascii,
      path <> sysfs_path p ->
      w_fs (snd (env_unprotect p w)) !! path = w_fs w !! path /\
      w_fs (snd (env_reprotect p w)) !! path = w_fs w !! path) /\
  (cf_perm_r <$> w_fs (snd (env_unprotect p w)) !! sysfs_path p)
  = (cf_perm_r <$> w_fs w !! sysfs_path p) /\
  (cf_perm_w <$> w_fs (snd (env_unprotect p w)) !! sysfs_path p)
  = (cf_perm_w <$> w_fs w !! sysfs_path p) /\
  (cf_eio <$> w_fs (snd (env_unprotect p w)) !! sysfs_path p)
  = (cf_eio <$> w_fs w !! sysfs_path p) /\
  (cf_perm_r <$> w_fs (snd (env_reprotect p w)) !! sysfs_path p)
  = (cf_perm_r <$> w_fs w !! sysfs_path p) /\
  (cf_perm_w <$> w_fs (snd (env_reprotect p w)) !! sysfs_path p)
  = (cf_perm_w <$> w_fs w !! sysfs_path p) /\
  (cf_eio <$> w_fs (snd (env_reprotect p w)) !! sysfs_path p)
  = (cf_eio <$> w_fs w !! sysfs_path p).
Proof.
  pose proof (protector_dispatch p Hp) as Hd.
  rewrite (env_unprotect_dispatch p Hd), (env_reprotect_dispatch p Hd).
  split.
  - intros path Hne. split;
      [apply unprotect_other_files | apply reprotect_other_files]; exact Hne.
  - pose proof (unprotect_file_attributes p w) as (H1 & H2 & H3).
    pose proof (reprotect_file_attributes p w) as (H4 & H5 & H6). auto 10.
Qed.

Lemma X7_witness :
  protector (fresh_protector ctl_boot1) /\
  (forall path : list ascii,
      path <> ctl_boot1 ->
      w_fs (snd (env_unprotect (fresh_protector ctl_boot1)
                               (world_with ctl_boot1 c_prot_char))) !! path
      = w_fs (world_with ctl_boot1 c_prot_char) !! path /\
      w_fs (snd (env_reprotect (fresh_protector ctl_boot1)
                               (world_with ctl_boot1 c_prot_char))) !! path
      = w_fs (world_with ctl_boot1 c_prot_char) !! path).
Proof.
  assert (H : protector (fresh_protector ctl_boot1)).
  { apply (protector_probed true dev_boot1 (world_with ctl_boot1 c_prot_char) 1 _
             (logged [SysAccess ctl_boot1] (world_with ctl_boot1 c_prot_char))).
    vm_compute. reflexivity. }
  split; [exact H |].
  exact (proj1 (X7_only_own_control_byte (fresh_protector ctl_boot1)
                  (world_with ctl_boot1 c_prot_char) H)).
Defined.

(** Frame and locality of both operations, in one statement. *)
Lemma operation_frame_local
      (op : env_protect_mmcblkboot_t -> io env_protect_mmcblkboot_t)
      (p : env_protect_mmcblkboot_t) :
  op = env_unprotect \/ op = env_reprotect -> protector p ->
  (forall w path, path <> sysfs_path p ->
                  w_fs (snd (op p w)) !! path = w_fs w !! path) /\
  (forall w w', w_fs w !! sysfs_path p = w_fs w' !! sysfs_path p ->
                fst (op p w) = fst (op p w') /\
                w_fs (snd (op p w)) !! sysfs_path p
                = w_fs (snd (op p w')) !! sysfs_path p).
Proof.
  intros Hop Hp. pose proof (protector_dispatch p Hp) as Hd.
  destruct Hop as [-> | ->].
  - rewrite (env_unprotect_dispatch p Hd). split.
    + intros w path. apply unprotect_other_files.
    + intros w w'. apply unprotect_local.
  - rewrite (env_reprotect_dispatch p Hd). split.
    + intros w path. apply reprotect_other_files.
    + intros w w'. apply reprotect_local.
Qed.

(** X9.  Protectors of different control files do not interfere: an
    operation ([env_unprotect] or [env_reprotect]) on one and an operation
    on the other give the same two protectors and the same file system in
    either order. *)
Theorem X9_distinct_protectors_commute
        (f g : env_protect_mmcblkboot_t -> io env_protect_mmcblkboot_t)
        (p q : env_protect_mmcblkboot_t) (w : world)
        (Hf : f = env_unprotect \/ f = env_reprotect)
        (Hg : g = env_unprotect \/ g = env_reprotect)
        (Hp : protector p) (Hq : protector q)
        (Hne : sysfs_path p <> sysfs_path q) :
  fst (f p w) = fst (f p (snd (g q w))) /\
  fst (g q w) = fst (g q (snd (f p w))) /\
  w_fs (snd (g q (snd (f p w)))) = w_fs (snd (f p (snd (g q w)))).
Proof.
  destruct (operation_frame_local f p Hf Hp) as [Ffr Floc].
  destruct (operation_frame_local g q Hg Hq) as [Gfr Gloc].
  assert (Hpq : w_fs w !! sysfs_path p = w_fs (snd (g q w)) !! sysfs_path p)
    by (symmetry; apply Gfr; exact Hne).
  assert (Hqp : w_fs w !! sysfs_path q = w_fs (snd (f p w)) !! sysfs_path q)
    by (symmetry; apply Ffr; congruence).
  split; [apply Floc, Hpq |]. split; [apply Gloc, Hqp |].
  apply map_eq. intros k.
  destruct (decide (k = sysfs_path p)) as [-> | Hkp].
  - rewrite (Gfr _ _ Hne). apply Floc, Hpq.
  - rewrite (Ffr _ _ Hkp).
    destruct (decide (k = sysfs_path q)) as [-> | Hkq].
    + symmetry. apply Gloc, Hqp.
    + rewrite !(Gfr _ _ Hkq). apply Ffr, Hkp.
Qed.

Lemma X9_witness :
  protector (fresh_protector ctl_boot1) /\ protector (fresh_protector ctl_boot0) /\
  sysfs_path (fresh_protector ctl_boot1) <> sysfs_path (fresh_protector ctl_boot0) /\
  w_fs (snd (env_reprotect (fresh_protector ctl_boot0)
               (snd (env_unprotect (fresh_protector ctl_boot1)
                                   (world_two c_prot_char c_prot_char)))))
  = w_fs (snd (env_unprotect (fresh_protector ctl_boot1)
                 (snd (env_reprotect (fresh_protector ctl_boot0)
                                     (world_two c_prot_char c_prot_char))))).
Proof.
  assert (H1 : protector (fresh_protector ctl_boot1)).
  { apply (protector_probed true dev_boot1 (world_two c_prot_char c_prot_char) 1 _
             (logged [SysAccess ctl_boot1] (world_two c_prot_char c_prot_char))).
    vm_compute. reflexivity. }
  assert (H0 : protector (fresh_protector ctl_boot0)).
  { apply (protector_probed true dev_boot0 (world_two c_prot_char c_prot_char) 1 _
             (logged [SysAccess ctl_boot0] (world_two c_prot_char c_prot_char))).
    vm_compute. reflexivity. }
  assert (Hne : sysfs_path (fresh_protector ctl_boot1)
                <> sysfs_path (fresh_protector ctl_boot0)) by discriminate.
  split; [exact H1 |]. split; [exact H0 |]. split; [exact Hne |].
  exact (proj2 (proj2 (X9_distinct_protectors_commute env_unprotect env_reprotect
                         (fresh_protector ctl_boot1) (fresh_protector ctl_boot0)
                         (world_two c_prot_char c_prot_char)
                         (or_introl eq_refl) (or_intror eq_refl) H1 H0 Hne))).
Defined.

(** ** Sequences of operations *)

(** X5.  [env_unprotect] followed by [env_reprotect] leaves every control
    file as it was before the two calls, whatever the control file holds
    and whether or not it can be opened or read, as long as the protector
    had nothing archived or its control file opens for reading and
    writing. *)
Theorem X5_unprotect_reprotect_restores
        (p : env_protect_mmcblkboot_t) (w : world)
        (Hp : protector p)
        (Hclean : current_prot p = NUL \/ can_open O_RDWR w (sysfs_path p) = true) :
  w_fs (snd (env_reprotect (fst (env_unprotect p w)) (snd (env_unprotect p w))))
  = w_fs w.
Proof.
  pose proof (protector_dispatch p Hp) as Hd.
  assert (Hd1 : parent (fst (env_unprotect p w)) = mmcblkboot_dispatch)
    by (apply protector_dispatch, protector_unprotected, Hp).
  rewrite (env_reprotect_dispatch _ Hd1), (env_unprotect_dispatch p Hd).
  destruct (unprotect_cases p w)
    as [Ho | [(f & Hf & Ho & Hu) | (f & b & Hf & Ho & He & Hb & Hs)]].
  - destruct Hclean as [Hc | Ho']; [| congruence].
    rewrite (unprotect_open_fails p w Ho). cbn [fst snd].
    rewrite (reprotect_nothing_archived _ _ Hc). reflexivity.
  - rewrite (unprotect_unknown p w f Hf Ho Hu). cbn [fst snd].
    rewrite reprotect_nothing_archived by reflexivity. reflexivity.
  - rewrite (unprotect_sentinel p w f b Hf Ho He Hb Hs). cbn [fst snd].
    assert (Hw : cf_perm_w f = true)
      by (cbn in Ho; apply andb_true_iff in Ho; tauto).
    assert (Hc : current_prot (set_current_prot b p) <> NUL)
      by (destruct Hs as [-> | ->]; discriminate).
    rewrite (reprotect_writes (set_current_prot b p) _ (store_byte c_unprot_char f) Hc
               (lookup_insert_eq _ _ _) Hw).
    cbn. rewrite He, insert_insert_eq. apply insert_id. rewrite Hf. f_equal.
    destruct f as [byte pr pw eio]. cbn in *. subst. reflexivity.
Qed.

Lemma X5_witness :
  protector (fresh_protector ctl_boot1) /\
  w_fs (snd (env_reprotect
               (fst (env_unprotect (fresh_protector ctl_boot1)
                                   (world_with ctl_boot1 c_unprot_char)))
               (snd (env_unprotect (fresh_protector ctl_boot1)
                                   (world_with ctl_boot1 c_unprot_char)))))
  = w_fs (world_with ctl_boot1 c_unprot_char).
Proof.
  assert (H : protector (fresh_protector ctl_boot1)).
  { apply (protector_probed true dev_boot1 (world_with ctl_boot1 c_prot_char) 1 _
             (logged [SysAccess ctl_boot1] (world_with ctl_boot1 c_prot_char))).
    vm_compute. reflexivity. }
  split; [exact H |].
  apply (X5_unprotect_reprotect_restores _ _ H). left. reflexivity.
Defined.

(** X6.  A second [env_unprotect] forgets what the first one archived.
    With a control file that opens and holds a sentinel, the first call
    leaves '0' in the file, the second call archives that '0', and the
    [env_reprotect] after them writes '0': a device that was protected
    stays unprotected. *)
Theorem X6_second_unprotect_forgets
        (p : env_protect_mmcblkboot_t) (w : world) (f : ctl_file) (b : ascii)
        (Hp : protector p)
        (Hf : w_fs w !! sysfs_path p = Some f)
        (Ho : may_open O_RDWR f = true) (He : cf_eio f = false)
        (Hb : cf_byte f = Some b) (Hs : is_sentinel b) :
  let s1 := env_unprotect p w in
  let s2 := env_unprotect (fst s1) (snd s1) in
  let s3 := env_reprotect (fst s2) (snd s2) in
  current_prot (fst s1) = b /\
  current_prot (fst s2) = c_unprot_char /\
  calls_of (env_reprotect (fst s2)) (snd s2)
  = [SysOpen (sysfs_path p) O_WRONLY; SysWrite (sysfs_path p) c_unprot_char;
     SysClose (sysfs_path p)] /\
  w_fs (snd s3) !! sysfs_path p = Some (store_byte c_unprot_char f).
Proof.
  pose proof (protector_dispatch p Hp) as Hd.
  cbv zeta.
  assert (Hd1 : parent (fst (env_unprotect p w)) = mmcblkboot_dispatch)
    by (apply protector_dispatch, protector_unprotected, Hp).
  assert (Hd2 : parent (fst (env_unprotect (fst (env_unprotect p w))
                                            (snd (env_unprotect p w))))
                = mmcblkboot_dispatch)
    by (apply protector_dispatch, protector_unprotected, protector_unprotected, Hp).
  rewrite (env_reprotect_dispatch _ Hd2).
  rewrite (env_unprotect_dispatch _ Hd1), (env_unprotect_dispatch p Hd).
  rewrite (unprotect_sentinel p w f b Hf Ho He Hb Hs). cbn [fst snd].
  set (f1 := store_byte c_unprot_char f).
  set (w1 := {| w_fs := <[sysfs_path p := f1]> (w_fs w); w_log := _; w_nomem := _ |}).
  assert (Hf1 : w_fs w1 !! sysfs_path (set_current_prot b p) = Some f1)
    by apply lookup_insert_eq.
  rewrite (unprotect_sentinel (set_current_prot b p) w1 f1 c_unprot_char Hf1 Ho He
             eq_refl (or_introl eq_refl)).
  cbn [fst snd].
  set (p2 := set_current_prot c_unprot_char (set_current_prot b p)).
  set (w2 := {| w_fs := <[_ := _]> (w_fs w1); w_log := _; w_nomem := _ |}).
  assert (Hf2 : w_fs w2 !! sysfs_path p2 = Some (store_byte c_unprot_char f1))
    by apply lookup_insert_eq.
  assert (Hw : cf_perm_w (store_byte c_unprot_char f1) = true)
    by (cbn in *; apply andb_true_iff in Ho; tauto).
  assert (Hc : current_prot p2 <> NUL) by discriminate.
  pose proof (reprotect_writes p2 w2 _ Hc Hf2 Hw) as Hre.
  split; [reflexivity |]. split; [reflexivity |].
  split; [apply calls_of_logged; rewrite Hre; reflexivity |].
  rewrite Hre. cbn. rewrite He. apply lookup_insert_eq.
Qed.

Lemma X6_witness :
  let p := fresh_protector ctl_boot1 in
  let w := world_with ctl_boot1 c_prot_char in
  let s1 := env_unprotect p w in
  let s2 := env_unprotect (fst s1) (snd s1) in
  let s3 := env_reprotect (fst s2) (snd s2) in
  protector p /\ w_fs w !! sysfs_path p = Some (ctl c_prot_char) /\
  current_prot (fst s1) = c_prot_char /\
  current_prot (fst s2) = c_unprot_char /\
  w_fs (snd s3) !! sysfs_path p = Some (ctl c_unprot_char).
Proof.
  intros p w s1 s2 s3.
  assert (Hp : protector p).
  { apply (protector_probed true dev_boot1 (world_with ctl_boot1 c_prot_char) 1 _
             (logged [SysAccess ctl_boot1] (world_with ctl_boot1 c_prot_char))).
    vm_compute. reflexivity. }
  assert (Hf : w_fs w !! sysfs_path p = Some (ctl c_prot_char))
    by (vm_compute; reflexivity).
  split; [exact Hp |]. split; [exact Hf |].
  pose proof (X6_second_unprotect_forgets p w (ctl c_prot_char) c_prot_char Hp Hf
                eq_refl eq_refl eq_refl (or_intror eq_refl)) as (H1 & H2 & _ & H4).
  split; [exact H1 |]. split; [exact H2 | exact H4].
Defined.

(** X8.  The system calls of one operation follow a fixed protocol on the
    protector's own control path.  [env_unprotect] issues an open alone
    when the open fails, and otherwise an open, one read, at most one write,
    which is of '0', and a close.  [env_reprotect] issues nothing, or an
    open alone when the open fails, or an open, one write of the archived
    byte and a close.  Every file that was opened is closed. *)
Theorem X8_call_protocol
        (p : env_protect_mmcblkboot_t) (w : world) (Hp : protector p) :
  ((can_open O_RDWR w (sysfs_path p) = false /\
    calls_of (env_unprotect p) w = [SysOpen (sysfs_path p) O_RDWR]) \/
   (can_open O_RDWR w (sysfs_path p) = true /\
    (calls_of (env_unprotect p) w
     = [SysOpen (sysfs_path p) O_RDWR; SysRead (sysfs_path p);
        SysClose (sysfs_path p)] \/
     calls_of (env_unprotect p) w
     = [SysOpen (sysfs_path p) O_RDWR; SysRead (sysfs_path p);
        SysWrite (sysfs_path p) c_unprot_char; SysClose (sysfs_path p)]))) /\
  ((current_prot p = NUL /\ calls_of (env_reprotect p) w = []) \/
   (can_open O_WRONLY w (sysfs_path p) = false /\
    calls_of (env_reprotect p) w = [SysOpen (sysfs_path p) O_WRONLY]) \/
   (can_open O_WRONLY w (sysfs_path p) = true /\
    calls_of (env_reprotect p) w
    = [SysOpen (sysfs_path p) O_WRONLY; SysWrite (sysfs_path p) (current_prot p);
       SysClose (sysfs_path p)])).
Proof.
  pose proof (protector_dispatch p Hp) as Hd.
  rewrite (env_reprotect_dispatch p Hd), (env_unprotect_dispatch p Hd). split.
  - destruct (unprotect_cases p w)
      as [Ho | [(f & Hf & Ho & Hu) | (f & b & Hf & Ho & He & Hb & Hs)]].
    + left. split; [exact Ho |].
      apply calls_of_logged. rewrite (unprotect_open_fails p w Ho). reflexivity.
    + right. split; [unfold can_open; rewrite Hf; exact Ho |]. left.
      apply calls_of_logged. rewrite (unprotect_unknown p w f Hf Ho Hu). reflexivity.
    + right. split; [unfold can_open; rewrite Hf; exact Ho |]. right.
      apply calls_of_logged.
      rewrite (unprotect_sentinel p w f b Hf Ho He Hb Hs). reflexivity.
  - rewrite reprotect_calls.
    destruct (Ascii.eqb_spec (current_prot p) NUL) as [Hc | Hc]; [auto |].
    destruct (can_open O_WRONLY w (sysfs_path p)); auto.
Qed.

Lemma X8_witness :
  protector (fresh_protector ctl_boot1) /\
  ((can_open O_RDWR (world_bare false) ctl_boot1 = false /\
    calls_of (env_unprotect (fresh_protector ctl_boot1)) (world_bare false)
    = [SysOpen ctl_boot1 O_RDWR]) \/
   (can_open O_RDWR (world_bare false) ctl_boot1 = true /\
    (calls_of (env_unprotect (fresh_protector ctl_boot1)) (world_bare false)
     = [SysOpen ctl_boot1 O_RDWR; SysRead ctl_boot1; SysClose ctl_boot1] \/
     calls_of (env_unprotect (fresh_protector ctl_boot1)) (world_bare false)
     = [SysOpen ctl_boot1 O_RDWR; SysRead ctl_boot1;
        SysWrite ctl_boot1 c_unprot_char; SysClose ctl_boot1]))).
Proof.
  assert (H : protector (fresh_protector ctl_boot1)).
  { apply (protector_probed true dev_boot1 (world_with ctl_boot1 c_prot_char) 1 _
             (logged [SysAccess ctl_boot1] (world_with ctl_boot1 c_prot_char))).
    vm_compute. reflexivity. }
  split; [exact H |].
  exact (proj1 (X8_call_protocol (fresh_protector ctl_boot1) (world_bare false) H)).
Defined.

(** X12.  The probe asks for write permission only, [env_unprotect] opens
    for reading and writing.  On a control file that may be written but not
    read the probe hands out a protector, and [env_unprotect] on it fails
    at the open: it reads nothing, writes nothing and archives nothing, so
    that the device stays as it was and [env_reprotect] does nothing
    either. *)
Theorem X12_write_only_control_file
        (char_signed : bool) (devname : list ascii) (w w' : world) (r : Z)
        (p : env_protect_mmcblkboot_t) (f : ctl_file)
        (Hprobe : env_protect_probe char_signed devname w = Done ((r, Some p), w'))
        (Hf : w_fs w !! sysfs_path p = Some f)
        (Hr : cf_perm_r f = false) :
  cf_perm_w f = true /\
  env_unprotect p w' = (p, logged [SysOpen (sysfs_path p) O_RDWR] w') /\
  forall w2 : world, env_reprotect p w2 = (p, w2).
Proof.
  pose proof (protector_dispatch p (protector_probed _ _ _ _ _ _ Hprobe)) as Hd.
  rewrite (env_unprotect_dispatch p Hd), (env_reprotect_dispatch p Hd).
  apply probe_success_inv in Hprobe as (_ & _ & Hfresh & Hw & -> & _).
  unfold writable in Hw. rewrite Hf in Hw.
  split; [exact Hw |]. split.
  - apply unprotect_open_fails. unfold can_open, logged. cbn [w_fs].
    rewrite Hf. cbn. rewrite Hr. reflexivity.
  - intros w2. apply reprotect_nothing_archived. rewrite Hfresh. reflexivity.
Qed.

Lemma X12_witness :
  let w := {| w_fs := {[ ctl_boot1 := ctl_write_only c_prot_char ]};
              w_log := []; w_nomem := false |} in
  let p := fresh_protector ctl_boot1 in
  env_protect_probe true dev_boot1 w = Done ((1, Some p), logged [SysAccess ctl_boot1] w) /\
  w_fs w !! sysfs_path p = Some (ctl_write_only c_prot_char) /\
  env_unprotect p (logged [SysAccess ctl_boot1] w)
  = (p, logged [SysOpen (sysfs_path p) O_RDWR] (logged [SysAccess ctl_boot1] w)).
Proof.
  intros w p.
  assert (Hprobe : env_protect_probe true dev_boot1 w
                   = Done ((1, Some p), logged [SysAccess ctl_boot1] w))
    by (vm_compute; reflexivity).
  assert (Hf : w_fs w !! sysfs_path p = Some (ctl_write_only c_prot_char))
    by (vm_compute; reflexivity).
  split; [exact Hprobe |]. split; [exact Hf |].
  exact (proj1 (proj2 (X12_write_only_control_file true dev_boot1 w _ 1 p
                         (ctl_write_only c_prot_char) Hprobe Hf eq_refl))).
Defined.

(** X14.  [env_reprotect] may be repeated: a second call right after the
    first leaves the protector and every control file as the first call
    left them. *)
Theorem X14_reprotect_idempotent
        (p : env_protect_mmcblkboot_t) (w : world) (Hp : protector p) :
  fst (env_reprotect p (snd (env_reprotect p w))) = fst (env_reprotect p w) /\
  w_fs (snd (env_reprotect p (snd (env_reprotect p w))))
  = w_fs (snd (env_reprotect p w)).
Proof.
  pose proof (protector_dispatch p Hp) as Hd.
  rewrite (env_reprotect_dispatch p Hd), !reprotect_frame.
  split; [reflexivity |].
  destruct (Ascii.eqb_spec (current_prot p) NUL) as [Hc | Hc].
  { rewrite !reprotect_nothing_archived by exact Hc. reflexivity. }
  destruct (can_open O_WRONLY w (sysfs_path p)) eqn:Ho.
  - apply can_open_inv in Ho as (f & Hf & Hw).
    rewrite (reprotect_writes p w f Hc Hf Hw). cbn [snd].
    destruct (cf_eio f) eqn:He;
      match goal with |- context [mmcblkboot_reprotect p ?w0] => set (w1 := w0) end.
    + rewrite (reprotect_writes p w1 f Hc Hf Hw). cbn. rewrite He. reflexivity.
    + rewrite (reprotect_writes p w1 (store_byte (current_prot p) f) Hc
                 (lookup_insert_eq _ _ _) Hw).
      cbn. rewrite He. apply insert_insert_eq.
  - rewrite (reprotect_open_fails p w Hc Ho). cbn [snd].
    assert (Ho' : can_open O_WRONLY (logged [SysOpen (sysfs_path p) O_WRONLY] w)
                           (sysfs_path p) = false) by exact Ho.
    rewrite (reprotect_open_fails p _ Hc Ho'). reflexivity.
Qed.

Lemma X14_witness :
  protector protector_after_unprotect /\
  w_fs (snd (env_reprotect protector_after_unprotect
               (snd (env_reprotect protector_after_unprotect
                                   (world_with ctl_boot1 c_unprot_char)))))
  = w_fs (snd (env_reprotect protector_after_unprotect
                             (world_with ctl_boot1 c_unprot_char))).
Proof.
  assert (H : protector protector_after_unprotect).
  { change protector_after_unprotect
      with (fst (env_unprotect (fresh_protector ctl_boot1)
                               (world_with ctl_boot1 c_prot_char))).
    apply protector_unprotected.
    apply (protector_probed true dev_boot1 (world_with ctl_boot1 c_prot_char) 1 _
             (logged [SysAccess ctl_boot1] (world_with ctl_boot1 c_prot_char))).
    vm_compute. reflexivity. }
  split; [exact H |].
  exact (proj2 (X14_reprotect_idempotent protector_after_unprotect
                  (world_with ctl_boot1 c_unprot_char) H)).
Defined.

(** X15.  [env_unprotect] only ever lifts protection: it leaves the control
    byte as it found it, or turns a '1' into '0'.  No other byte is ever
    put in place of another one, and no '1' is ever written. *)
Theorem X15_unprotect_only_clears
        (p : env_protect_mmcblkboot_t) (w : world) (Hp : protector p) :
  let before := cf_byte <$> w_fs w !! sysfs_path p in
  let after := cf_byte <$> w_fs (snd (env_unprotect p w)) !! sysfs_path p in
  after = before \/
  (before = Some (Some c_prot_char) /\ after = Some (Some c_unprot_char)).
Proof.
  cbv zeta. rewrite (env_unprotect_dispatch p (protector_dispatch p Hp)).
  destruct (unprotect_cases p w)
    as [Ho | [(f & Hf & Ho & Hu) | (f & b & Hf & Ho & He & Hb & Hs)]].
  - rewrite (unprotect_open_fails p w Ho). auto.
  - rewrite (unprotect_unknown p w f Hf Ho Hu). auto.
  - rewrite (unprotect_sentinel p w f b Hf Ho He Hb Hs). cbn [snd w_fs].
    rewrite lookup_insert_eq, Hf. cbn. rewrite Hb.
    destruct Hs as [-> | ->]; auto.
Qed.

Lemma X15_witness :
  let p := fresh_protector ctl_boot1 in
  let w := world_with ctl_boot1 c_prot_char in
  let before := cf_byte <$> w_fs w !! sysfs_path p in
  let after := cf_byte <$> w_fs (snd (env_unprotect p w)) !! sysfs_path p in
  protector p /\
  (after = before \/
   (before = Some (Some c_prot_char) /\ after = Some (Some c_unprot_char))).
Proof.
  intros p w before after.
  assert (H : protector p).
  { apply (protector_probed true dev_boot1 (world_with ctl_boot1 c_prot_char) 1 _
             (logged [SysAccess ctl_boot1] (world_with ctl_boot1 c_prot_char))).
    vm_compute. reflexivity. }
  split; [exact H |].
  exact (X15_unprotect_only_clears p w H).
Defined.
